(** * libroom: the Python binding layer of the room-acoustics engine

    This development embeds [libroom.cpp], the pybind11 module that exposes
    the [Room] and [Wall] classes, the geometric tolerance and the geometry
    kernel to Python.

    Conventions of the embedding:
    - a C++ [float] is a rational number ([Q]), the number it holds; the
      arithmetic on it is exact.  The one [float] that the module itself
      stores, the tolerance, is also given with its sign, mantissa and
      exponent, and the rounding to single precision is written out
      ([Single]);
    - a C++ [int] is a [Z], with the 32-bit range written out where a
      conversion checks it;
    - an [Eigen::VectorXf] is a [list float], an [Eigen::MatrixXf] is a row
      count together with the list of its columns;
    - a [std::vector<T>] and a [py::list] are lists, [push_back] is [++ [x]];
    - a call that may throw, or that has no defined behaviour, returns an
      [outcome]. *)

From Stdlib Require Import List ZArith QArith Qabs String Bool Arith Lia Lra Psatz.
From Stdlib Require Import Setoid Morphisms.
From Stdlib Require Import Floats.SpecFloat Permutation.
Import ListNotations.

(** ** Outcomes of a call *)

Inductive exn : Type :=
| cast_error        (* pybind11::cast_error *)
| attribute_error   (* Python AttributeError *)
| type_error.       (* Python TypeError *)

Inductive outcome (A : Type) : Type :=
| Returned (a : A)
| Raised (e : exn)
| Undefined.

Arguments Returned {A} a.
Arguments Raised {A} e.
Arguments Undefined {A}.

Definition bind {A B : Type} (m : outcome A) (k : A -> outcome B) : outcome B :=
  match m with
  | Returned a => k a
  | Raised e => Raised e
  | Undefined => Undefined
  end.

Declare Scope outcome_scope.
Delimit Scope outcome_scope with outcome.
Notation "x <- m ;; k" := (bind m (fun x => k))
  (at level 61, m at next level, right associativity) : outcome_scope.
Local Open Scope outcome_scope.

(** ** Numbers, vectors and matrices *)

Abbreviation float := Q (only parsing).
Definition Vector : Type := list float.

Record MatrixXf : Type := mkMatrix {
  mat_rows : nat;
  mat_columns : list Vector
}.

(** [m.col(0)]: Eigen checks the index with an assertion only, so column 0
    of a matrix without columns is not defined. *)
Definition col0 (m : MatrixXf) : outcome Vector :=
  match mat_columns m with
  | c :: _ => Returned c
  | [] => Undefined
  end.

(** ** Walls

    The fields are those the module registers for [Wall]. *)

Record Wall : Type := mkWall {
  Wall_dim : Z;
  absorption : float;
  name : string;
  corners : MatrixXf;
  origin : Vector;
  normal : Vector;
  basis : MatrixXf;
  flat_corners : MatrixXf
}.

(** ** Rooms

    The fields are those the module registers for [Room], and [dim], which
    [create_room] assigns. *)

Record Room : Type := mkRoom {
  dim : Z;
  walls : list Wall;
  obstructing_walls : list Z;
  microphones : MatrixXf;
  mic_pos : Vector;
  max_dist : float;
  sources : list Vector;
  orders : list nat;
  attenuations : list float;
  gen_walls : list (option nat);
  visible_mics : list (list bool)
}.

Definition set_microphones (m : MatrixXf) (r : Room) : Room :=
  mkRoom (dim r) (walls r) (obstructing_walls r) m (mic_pos r) (max_dist r)
         (sources r) (orders r) (attenuations r) (gen_walls r) (visible_mics r).

Definition set_walls (ws : list Wall) (r : Room) : Room :=
  mkRoom (dim r) ws (obstructing_walls r) (microphones r) (mic_pos r) (max_dist r)
         (sources r) (orders r) (attenuations r) (gen_walls r) (visible_mics r).

Definition set_obstructing_walls (os : list Z) (r : Room) : Room :=
  mkRoom (dim r) (walls r) os (microphones r) (mic_pos r) (max_dist r)
         (sources r) (orders r) (attenuations r) (gen_walls r) (visible_mics r).

Definition set_dim (d : Z) (r : Room) : Room :=
  mkRoom d (walls r) (obstructing_walls r) (microphones r) (mic_pos r) (max_dist r)
         (sources r) (orders r) (attenuations r) (gen_walls r) (visible_mics r).

Definition set_mic_pos (p : Vector) (r : Room) : Room :=
  mkRoom (dim r) (walls r) (obstructing_walls r) (microphones r) p (max_dist r)
         (sources r) (orders r) (attenuations r) (gen_walls r) (visible_mics r).

Definition set_max_dist (d : float) (r : Room) : Room :=
  mkRoom (dim r) (walls r) (obstructing_walls r) (microphones r) (mic_pos r) d
         (sources r) (orders r) (attenuations r) (gen_walls r) (visible_mics r).

(** ** Python objects and their conversions *)

Inductive py_object : Type :=
| PyWall (w : Wall)
| PyInt (z : Z)
| PyFloat (x : float)
| PyStr (s : string)
| PyVector (v : Vector)
| PyMatrix (m : MatrixXf)
| PyMethod (m : string)
| PyEnumType (n : string)
| PyEnumValue (n v : string)
| PyNone.

(** [obj.cast<Wall>()] *)
Definition cast_Wall (o : py_object) : outcome Wall :=
  match o with
  | PyWall w => Returned w
  | _ => Raised cast_error
  end.

Definition INT_MIN : Z := - 2 ^ 31.
Definition INT_MAX : Z := 2 ^ 31 - 1.

Definition in_int_range (z : Z) : Prop := (INT_MIN <= z <= INT_MAX)%Z.

(** [obj.cast<int>()] *)
Definition cast_int (o : py_object) : outcome Z :=
  match o with
  | PyInt z =>
      if ((INT_MIN <=? z) && (z <=? INT_MAX))%Z then Returned z
      else Raised cast_error
  | _ => Raised cast_error
  end.

(** [for (auto x : l) v.push_back(x.cast<T>());] *)
Fixpoint push_back_all {A : Type} (cast : py_object -> outcome A)
         (l : list py_object) (v : list A) : outcome (list A) :=
  match l with
  | [] => Returned v
  | o :: l' => x <- cast o ;; push_back_all cast l' (v ++ [x])
  end.

(** [v[0]] on a [std::vector]: not defined when the vector is empty. *)
Definition front {A : Type} (v : list A) : outcome A :=
  match v with
  | x :: _ => Returned x
  | [] => Undefined
  end.

(** ** [create_room] *)

Section CreateRoom.

(** [Room::Room()] and [Room::get_max_distance] are declared in room.hpp.
    The containers of a fresh room are empty; the values of its scalar
    members before [create_room] assigns them are left open.  The distance
    bound is taken as a function of the room that returns a value; which
    value is left open. *)
Variable dim0 : Z.
Variable max_dist0 : float.
Variable get_max_distance : Room -> float.

Definition new_Room : Room :=
  mkRoom dim0 [] [] (mkMatrix 0 []) [] max_dist0 [] [] [] [] [].

Definition create_room (_walls _obstructing_walls : list py_object)
           (_microphones : MatrixXf) : outcome Room :=
  let room := set_microphones _microphones new_Room in
  ws <- push_back_all cast_Wall _walls (walls room) ;;
  let room := set_walls ws room in
  os <- push_back_all cast_int _obstructing_walls (obstructing_walls room) ;;
  let room := set_obstructing_walls os room in
  w0 <- front (walls room) ;;
  let room := set_dim (Wall_dim w0) room in
  c0 <- col0 _microphones ;;
  let room := set_mic_pos c0 room in
  let room := set_max_dist (get_max_distance room) room in
  Returned room.

(** The room under construction at the point where the distance bound is
    computed. *)
Definition room_before_max_dist (ws : list Wall) (os : list Z) (m : MatrixXf)
           (d : Z) (c : Vector) : Room :=
  mkRoom d ws os m c max_dist0 [] [] [] [] [].

End CreateRoom.

(** ** The geometric tolerance

    [libroom_eps] is the one global variable of the module.  Here it is
    the number that the variable holds; [Single], below, gives the
    variable as it is stored, with [set_eps] and [get_eps].  The literal
    [1e-5] that initialises it is stored as the single-precision number
    nearest to it, 10995116 / 2^40. *)

Record globals : Type := mkGlobals {
  libroom_eps : float
}.

Definition initial_globals : globals := mkGlobals (10995116 # 1099511627776).

(** ** Vector arithmetic *)

Local Open Scope Q_scope.

Definition Qlt_bool (x y : Q) : bool := negb (Qle_bool y x).

Definition coord (i : nat) (v : Vector) : float := nth i v 0.

Fixpoint dot (u v : Vector) : float :=
  match u, v with
  | x :: u', y :: v' => x * y + dot u' v'
  | _, _ => 0
  end.

Fixpoint vadd (u v : Vector) : Vector :=
  match u, v with
  | x :: u', y :: v' => (x + y) :: vadd u' v'
  | _, _ => []
  end.

Fixpoint vsub (u v : Vector) : Vector :=
  match u, v with
  | x :: u', y :: v' => (x - y) :: vsub u' v'
  | _, _ => []
  end.

Definition vscale (a : float) (v : Vector) : Vector :=
  map (Qmult a) v.

(** Equality of vectors, coordinate by coordinate. *)
Definition vec_eq (u v : Vector) : Prop := Forall2 Qeq u v.

(** Squared Euclidean distance. *)
Definition dist2 (u v : Vector) : float := dot (vsub u v) (vsub u v).

(** ** Wall operations *)

Inductive Side : Type := InFront | Behind | OnWall.

Definition plane_offset (w : Wall) (p : Vector) : float :=
  dot (normal w) (vsub p (origin w)).

(** Modelled from the spec: [Wall::side] is defined in wall.hpp, which is
    missing.  A point is in front of, behind or on the wall's plane by the
    sign of normal . (point - origin), tolerant to the global tolerance. *)
Definition Wall_side (g : globals) (w : Wall) (p : Vector) : Side :=
  let d := plane_offset w p in
  if Qlt_bool (libroom_eps g) d then InFront
  else if Qlt_bool d (- libroom_eps g) then Behind
  else OnWall.

(** Modelled from the spec: [Wall::reflect] is defined in wall.hpp, which
    is missing.  It mirrors a point across the wall's plane, the plane
    through [origin] with the normal that the wall stores. *)
Definition Wall_reflect (w : Wall) (p : Vector) : Vector :=
  vadd p (vscale (2 * dot (normal w) (vsub (origin w) p)) (normal w)).

(** A point of the wall's dimension, for a wall whose origin and normal
    have as many coordinates as the wall has dimensions. *)
Definition same_dimension (w : Wall) (p : Vector) : Prop :=
  Z.of_nat (List.length (origin w)) = Wall_dim w /\
  Z.of_nat (List.length (normal w)) = Wall_dim w /\
  Z.of_nat (List.length p) = Wall_dim w.

(** By how much the squared length of the stored normal differs from 1. *)
Definition normal_excess (w : Wall) : float :=
  dot (normal w) (normal w) - 1.

(** ** The [Wall] class as registered with Python

    [def_readonly] registers a getter only, [def_readwrite] a getter and a
    setter that converts its argument and assigns the member. *)

Local Open Scope string_scope.

Record property : Type := mkProperty {
  prop_name : string;
  fget : Wall -> py_object;
  fset : option (py_object -> Wall -> outcome Wall)
}.

Definition def_readonly (n : string) (get : Wall -> py_object) : property :=
  mkProperty n get None.

Definition def_readwrite {A : Type} (n : string) (get : Wall -> py_object)
           (convert : py_object -> outcome A) (assign : A -> Wall -> Wall) : property :=
  mkProperty n get (Some (fun v w => x <- convert v ;; Returned (assign x w))).

(** Conversion of a setter's argument to [float] and to [std::string]; a
    failed conversion of an argument is a TypeError. *)
Definition load_float (o : py_object) : outcome float :=
  match o with
  | PyFloat x => Returned x
  | PyInt z => Returned (inject_Z z)
  | _ => Raised type_error
  end.

Definition load_string (o : py_object) : outcome string :=
  match o with
  | PyStr s => Returned s
  | _ => Raised type_error
  end.

Definition assign_absorption (a : float) (w : Wall) : Wall :=
  mkWall (Wall_dim w) a (name w) (corners w) (origin w) (normal w)
         (basis w) (flat_corners w).

Definition assign_name (n : string) (w : Wall) : Wall :=
  mkWall (Wall_dim w) (absorption w) n (corners w) (origin w) (normal w)
         (basis w) (flat_corners w).

Definition Wall_properties : list property :=
  [ def_readonly "dim" (fun w => PyInt (Wall_dim w));
    def_readwrite "absorption" (fun w => PyFloat (absorption w))
                  load_float assign_absorption;
    def_readwrite "name" (fun w => PyStr (name w)) load_string assign_name;
    def_readonly "corners" (fun w => PyMatrix (corners w));
    def_readonly "origin" (fun w => PyVector (origin w));
    def_readonly "normal" (fun w => PyVector (normal w));
    def_readonly "basis" (fun w => PyMatrix (basis w));
    def_readonly "flat_corners" (fun w => PyMatrix (flat_corners w)) ].

(** The functions registered with [def], and the constructor, which
    [py::init] registers as [__init__]. *)
Definition Wall_methods : list string :=
  [ "__init__";
    "area"; "intersection"; "intersects"; "side"; "reflect"; "same_as" ].

(** The enumeration [Isect], registered in the scope of the class, and its
    values, which [export_values] puts in that scope too. *)
Definition Wall_class_attributes : list (string * py_object) :=
  [ ("Isect", PyEnumType "Isect");
    ("NONE", PyEnumValue "Isect" "NONE");
    ("VALID", PyEnumValue "Isect" "VALID");
    ("ENDPT", PyEnumValue "Isect" "ENDPT");
    ("BNDRY", PyEnumValue "Isect" "BNDRY") ].

Definition find_class_attribute (n : string) : option py_object :=
  option_map snd (find (fun kv => String.eqb (fst kv) n) Wall_class_attributes).

Definition find_property (n : string) : option property :=
  find (fun p => String.eqb (prop_name p) n) Wall_properties.

Definition is_method (m : string) : bool :=
  existsb (String.eqb m) Wall_methods.

(** What Python code can do with a wall it holds: read an attribute,
    assign an attribute, call a function registered for the class. *)
Inductive Wall_op : Type :=
| GetAttr (n : string)
| SetAttr (n : string) (v : py_object)
| CallMethod (m : string) (args : list py_object).

(** The geometric members of a wall. *)
Definition geometry (w : Wall) : Z * MatrixXf * Vector * Vector * MatrixXf * MatrixXf :=
  (Wall_dim w, corners w, origin w, normal w, basis w, flat_corners w).

Section WallClass.

(** Modelled from the spec: the member functions of [Wall] are defined in
    wall.hpp, which is missing.  The spec describes area, intersection,
    intersects, side, reflect and same_as as queries on a wall that is
    immutable after construction: a call computes a result from the wall
    and its arguments and leaves the wall as it is.  So does [__init__] on
    a wall that is already constructed. *)
Variable method_result : string -> list py_object -> Wall -> outcome py_object.

(** A name that the class does not register is looked up in what every
    Python object has ([__class__], [__doc__] and the like), which depends
    on the interpreter. *)
Variable object_attribute : string -> option py_object.

Definition Wall_apply (op : Wall_op) (w : Wall) : outcome (py_object * Wall) :=
  match op with
  | GetAttr n =>
      match find_property n with
      | Some p => Returned (fget p w, w)
      | None =>
          if is_method n then Returned (PyMethod n, w)
          else
            match find_class_attribute n with
            | Some v => Returned (v, w)
            | None =>
                match object_attribute n with
                | Some v => Returned (v, w)
                | None => Raised attribute_error
                end
            end
      end
  | SetAttr n v =>
      match find_property n with
      | Some p =>
          match fset p with
          | Some f => w' <- f v w ;; Returned (PyNone, w')
          | None => Raised attribute_error
          end
      | None => Raised attribute_error
      end
  | CallMethod m args =>
      if is_method m
      then v <- method_result m args w ;; Returned (v, w)
      else Raised attribute_error
  end.

End WallClass.

Local Close Scope string_scope.
Local Open Scope list_scope.

(** ** Image sources *)

Record ImageSource : Type := mkImage {
  position : Vector;
  order : nat;
  attenuation : float;
  gen_wall : option nat;
  visible : list bool
}.

(** The walls of a room with their ids. *)
Definition enumerate {A : Type} (l : list A) : list (nat * A) :=
  combine (seq 0 (List.length l)) l.

(** A run appends the records it finds to the collections of the room. *)
Definition append_images (imgs : list ImageSource) (r : Room) : Room :=
  mkRoom (dim r) (walls r) (obstructing_walls r) (microphones r) (mic_pos r)
         (max_dist r)
         (sources r ++ map position imgs)
         (orders r ++ map order imgs)
         (attenuations r ++ map attenuation imgs)
         (gen_walls r ++ map gen_wall imgs)
         (visible_mics r ++ map visible imgs).

(** The records of a room, read column by column from its collections. *)
Fixpoint zip_records (ps : list Vector) (ks : list nat) (ats : list float)
  : list (Vector * nat * float) :=
  match ps, ks, ats with
  | p :: ps', k :: ks', a :: ats' => (p, k, a) :: zip_records ps' ks' ats'
  | _, _, _ => []
  end.

Definition image_records (r : Room) : list (Vector * nat * float) :=
  zip_records (sources r) (orders r) (attenuations r).

(** A room that holds no image source yet, as after construction. *)
Definition no_images (r : Room) : Prop :=
  sources r = [] /\ orders r = [] /\ attenuations r = [].

Fixpoint qpow (q : float) (n : nat) : float :=
  match n with
  | O => 1
  | S n' => q * qpow q n'
  end.

Definition wall_absorption (room : Room) (i : nat) : float :=
  match nth_error (walls room) i with
  | Some w => absorption w
  | None => 0
  end.

(** Position along one axis of the image with lattice index [n], for a room
    of length [L] along that axis and a source at [s]: the source mirrored
    across the two opposing walls in turn. *)
Definition image_coord (L s : float) (n : Z) : float :=
  if Z.even n then inject_Z n * L + s else inject_Z (n + 1) * L - s.

(** Bounces off the wall through the origin and off the opposing wall on
    the way to the image with lattice index [n]. *)
Definition bounces_lo (n : Z) : nat :=
  if (n <? 0)%Z then Z.to_nat ((1 - n) / 2) else Z.to_nat (n / 2).

Definition bounces_hi (n : Z) : nat :=
  if (n <? 0)%Z then Z.to_nat ((- n) / 2) else Z.to_nat ((n + 1) / 2).

Definition lattice_range (N : nat) : list Z :=
  map (fun i => (Z.of_nat i - Z.of_nat N)%Z) (seq 0 (2 * N + 1)).

Definition lattice_order (n : Z * Z * Z) : Z :=
  let '(a, b, c) := n in (Z.abs a + Z.abs b + Z.abs c)%Z.

Definition lattice (N : nat) : list (Z * Z * Z) :=
  flat_map (fun a =>
    flat_map (fun b =>
      flat_map (fun c =>
        if (lattice_order (a, b, c) <=? Z.of_nat N)%Z then [(a, b, c)] else [])
        (lattice_range N))
      (lattice_range N))
    (lattice_range N).

Section ImageSourceModel.

(** Visibility of an image source from a microphone is decided by
    [Wall::intersection] over the walls of the room (wall.hpp and the
    geometry kernel, which are missing). *)
Variable is_visible : Room -> Vector -> option nat -> Vector -> bool.
Variable g : globals.
Variable room : Room.

Definition visibility (p : Vector) (gw : option nat) : list bool :=
  map (is_visible room p gw) (mat_columns (microphones room)).

(** Modelled from the spec: [Room::image_source_model] is defined in
    room.hpp, which is missing.  Order 0 is the real source.  For each
    image source of order k and each wall w the mirror image across w is
    accepted at order k+1, with the attenuation multiplied by
    1 - absorption of w and w as generating wall, unless it lies behind
    the wall it was reflected from; a rejected image is not expanded. *)
Definition reflect_image (img : ImageSource) (iw : nat * Wall) : list ImageSource :=
  let (i, w) := iw in
  let p := Wall_reflect w (position img) in
  match Wall_side g w p with
  | Behind => []
  | _ => [ mkImage p (S (order img)) (attenuation img * (1 - absorption w))
                   (Some i) (visibility p (Some i)) ]
  end.

Definition children (img : ImageSource) : list ImageSource :=
  flat_map (reflect_image img) (enumerate (walls room)).

Fixpoint image_sources (depth : nat) (img : ImageSource) : list ImageSource :=
  img :: match depth with
         | O => []
         | S depth' => flat_map (image_sources depth') (children img)
         end.

Definition real_source (source : Vector) : ImageSource :=
  mkImage source 0 1 None (visibility source None).

Definition image_source_model (source : Vector) (max_order : nat) : Room :=
  append_images (image_sources max_order (real_source source)) room.

(** Modelled from the spec: [Room::image_source_shoebox] is defined in
    room.hpp, which is missing.  For the six-wall box with a corner at the
    origin, the images up to [max_order] are the lattice points whose
    indices sum, in absolute value, to at most [max_order]; the position
    follows from mirroring along each axis, and the attenuation is the
    product over the three pairs of opposing walls (walls 2d and 2d+1 for
    axis d) of 1 - absorption raised to the number of bounces. *)
Definition axis_attenuation (d : nat) (n : Z) : float :=
  qpow (1 - wall_absorption room (2 * d)) (bounces_lo n)
  * qpow (1 - wall_absorption room (2 * d + 1)) (bounces_hi n).

Definition shoebox_image (source room_size : Vector) (n : Z * Z * Z) : ImageSource :=
  let '(a, b, c) := n in
  let p := [ image_coord (coord 0 room_size) (coord 0 source) a;
             image_coord (coord 1 room_size) (coord 1 source) b;
             image_coord (coord 2 room_size) (coord 2 source) c ] in
  mkImage p (Z.to_nat (lattice_order n))
          (axis_attenuation 0 a * axis_attenuation 1 b * axis_attenuation 2 c)
          None (visibility p None).

Definition image_source_shoebox (source room_size : Vector) (max_order : nat) : Room :=
  append_images (map (shoebox_image source room_size) (lattice max_order)) room.

(** The position reached from [p] by reflecting across the walls of a
    path in turn, and the attenuation collected along it; a wall id
    outside the room's walls contributes nothing. *)
Fixpoint reflect_along (path : list nat) (p : Vector) : Vector :=
  match path with
  | [] => p
  | i :: path' =>
      match nth_error (walls room) i with
      | Some w => reflect_along path' (Wall_reflect w p)
      | None => reflect_along path' p
      end
  end.

Fixpoint path_attenuation (path : list nat) : float :=
  match path with
  | [] => 1
  | i :: path' => (1 - wall_absorption room i) * path_attenuation path'
  end.

End ImageSourceModel.

(** An axis-aligned shoebox room of the given size with a corner at the
    origin: six walls, wall 2d through the origin and wall 2d+1 opposite
    to it along axis d, normals pointing out of the room. *)
Definition axis_wall (axis : nat) (n level : float) (w : Wall) : Prop :=
  Wall_dim w = 3%Z /\
  List.length (origin w) = 3%nat /\
  coord axis (origin w) == level /\
  vec_eq (normal w) (map (fun j => if Nat.eqb j axis then n else 0) [0; 1; 2]%nat).

Definition is_shoebox (Lx Ly Lz : float) (room : Room) : Prop :=
  exists w0 w1 w2 w3 w4 w5,
    walls room = [w0; w1; w2; w3; w4; w5] /\
    axis_wall 0 (-1) 0 w0 /\ axis_wall 0 1 Lx w1 /\
    axis_wall 1 (-1) 0 w2 /\ axis_wall 1 1 Ly w3 /\
    axis_wall 2 (-1) 0 w4 /\ axis_wall 2 1 Lz w5.

(** Two records agree when their positions and attenuations are equal as
    numbers and their orders are the same. *)
Definition record_eq (r1 r2 : Vector * nat * float) : Prop :=
  vec_eq (fst (fst r1)) (fst (fst r2)) /\
  snd (fst r1) = snd (fst r2) /\
  snd r1 == snd r2.

(** Two collections hold the same set of records. *)
Definition same_records (l1 l2 : list (Vector * nat * float)) : Prop :=
  (forall r, In r l1 -> exists r', In r' l2 /\ record_eq r r') /\
  (forall r, In r l2 -> exists r', In r' l1 /\ record_eq r r').

(** The part of an image source that the two searches are compared on. *)
Definition record_of (img : ImageSource) : Vector * nat * float :=
  (position img, order img, attenuation img).

Definition image_eq (i1 i2 : ImageSource) : Prop :=
  record_eq (record_of i1) (record_of i2).

(** The lattice index reached along one axis by a reflection across the
    wall through the origin ([far = false]) or the opposite one, when the
    image lies on the inner side of that wall. *)
Definition axis_step (far : bool) (a : Z) : option Z :=
  if far
  then if (a <=? 0)%Z then Some (1 - a)%Z else None
  else if (0 <=? a)%Z then Some (- a - 1)%Z else None.

(** The lattice point reached from [n] by a reflection across wall [i] of
    a shoebox. *)
Definition lattice_step (i : nat) (n : Z * Z * Z) : option (Z * Z * Z) :=
  let '(a, b, c) := n in
  match i with
  | 0%nat => option_map (fun a' => (a', b, c)) (axis_step false a)
  | 1%nat => option_map (fun a' => (a', b, c)) (axis_step true a)
  | 2%nat => option_map (fun b' => (a, b', c)) (axis_step false b)
  | 3%nat => option_map (fun b' => (a, b', c)) (axis_step true b)
  | 4%nat => option_map (fun c' => (a, b, c')) (axis_step false c)
  | 5%nat => option_map (fun c' => (a, b, c')) (axis_step true c)
  | _ => None
  end.

Definition bounces (far : bool) (n : Z) : nat :=
  if far then bounces_hi n else bounces_lo n.

(** The point [p] mirrored across the plane at [level] along [axis]. *)
Definition mirror_coord (axis : nat) (level : Q) (p : Vector) : Vector :=
  map (fun j => if Nat.eqb j axis then 2 * level - coord j p else coord j p)
      [0; 1; 2]%nat.

(** The outward normal's component along the axis of a shoebox wall. *)
Definition outward (far : bool) : Q := if far then 1 else -1.

(** ** Example walls and rooms *)

(** The segment from (0,0) to (4,0) as a wall of a 2D room. *)
Definition wall_2d : Wall :=
  mkWall 2 (1 # 5) "south"
         (mkMatrix 2 [[0; 0]; [4; 0]])
         [0; 0] [0; -1]
         (mkMatrix 2 []) (mkMatrix 2 []).

(** The 4 x 3 floor of a 3D room. *)
Definition wall_3d : Wall :=
  mkWall 3 (1 # 5) "floor"
         (mkMatrix 3 [[0; 0; 0]; [0; 3; 0]; [4; 3; 0]; [4; 0; 0]])
         [0; 0; 0] [0; 0; -1]
         (mkMatrix 3 [[0; 1; 0]; [1; 0; 0]])
         (mkMatrix 2 [[0; 0]; [3; 0]; [3; 4]; [0; 4]]).

(** The segment from (0,0) to (-1,1) as a wall of a 2D room.  Its normal
    points along (1,1); each coordinate is stored as the single-precision
    number nearest to the square root of one half, 11863283 / 2^24. *)
Definition wall_45 : Wall :=
  mkWall 2 (1 # 5) "diagonal"
         (mkMatrix 2 [[0; 0]; [-1; 1]])
         [0; 0] [11863283 # 16777216; 11863283 # 16777216]
         (mkMatrix 2 []) (mkMatrix 2 []).

Definition one_microphone : MatrixXf := mkMatrix 3 [[2; 2; 1]].

(** A wall of the box of size [size] across axis [axis]: the one through
    the origin when [far] is false, the opposite one otherwise. *)
Definition box_wall (size : Vector) (axis : nat) (far : bool) (a : float) : Wall :=
  let level := if far then coord axis size else 0 in
  let n := if far then 1 else -1 in
  mkWall 3 a ""
         (mkMatrix 3 [])
         (map (fun j => if Nat.eqb j axis then level else 0) [0; 1; 2]%nat)
         (map (fun j => if Nat.eqb j axis then n else 0) [0; 1; 2]%nat)
         (mkMatrix 3 []) (mkMatrix 2 []).

(** The 4 x 3 x 2 box with a different absorption on each wall. *)
Definition box_4_3_2 : Room :=
  let size := [4; 3; 2] in
  mkRoom 3
         [ box_wall size 0 false (1 # 10); box_wall size 0 true (2 # 10);
           box_wall size 1 false (3 # 10); box_wall size 1 true (4 # 10);
           box_wall size 2 false (5 # 10); box_wall size 2 true (6 # 10) ]
         [] one_microphone [2; 2; 1] 10 [] [] [] [] [].

(** A corridor: two facing walls, one unit and three units from the
    origin along the first axis. *)
Definition corridor : Room :=
  mkRoom 2
         [ mkWall 2 (1 # 4) "left" (mkMatrix 2 [[-1; 0]; [-1; 1]])
                  [-1; 0] [-1; 0] (mkMatrix 2 []) (mkMatrix 2 []);
           mkWall 2 (1 # 2) "right" (mkMatrix 2 [[3; 1]; [3; 0]])
                  [3; 1] [1; 0] (mkMatrix 2 []) (mkMatrix 2 []) ]
         [] (mkMatrix 2 [[1; 0]]) [1; 0] 10 [] [] [] [] [].

Definition always_visible (r : Room) (p : Vector) (gw : option nat) (m : Vector) : bool :=
  true.

(** The square room with corners (0,0), (4,0), (4,4), (0,4), absorption
    0.2 on every wall and a microphone at (2,2). *)
Definition square_wall (o n : Vector) (c : list Vector) (nm : string) : Wall :=
  mkWall 2 (1 # 5) nm (mkMatrix 2 c) o n (mkMatrix 2 []) (mkMatrix 2 []).

Definition square_room : Room :=
  mkRoom 2
         [ square_wall [0; 0] [0; -1] [[0; 0]; [4; 0]] "south";
           square_wall [4; 0] [1; 0] [[4; 0]; [4; 4]] "east";
           square_wall [4; 4] [0; 1] [[4; 4]; [0; 4]] "north";
           square_wall [0; 4] [-1; 0] [[0; 4]; [0; 0]] "west" ]
         [] (mkMatrix 2 [[2; 2]]) [2; 2] 10 [] [] [] [] [].

(** A record with its numbers in lowest terms. *)
Definition reduced (r : Vector * nat * float) : Vector * nat * float :=
  (map Qred (fst (fst r)), snd (fst r), Qred (snd r)).

(** ** Python lists that [create_room] accepts *)

Definition is_Wall_object (o : py_object) : bool :=
  match o with
  | PyWall _ => true
  | _ => false
  end.

Definition is_int_object (o : py_object) : bool :=
  match o with
  | PyInt z => ((INT_MIN <=? z) && (z <=? INT_MAX))%Z
  | _ => false
  end.

(** ** A Python session on one wall

    The operations are applied in turn; an operation that raises is caught
    and the session goes on with the wall as it was. *)

Section WallSession.

Variable method_result : string -> list py_object -> Wall -> outcome py_object.
Variable object_attribute : string -> option py_object.

Fixpoint Wall_run (ops : list Wall_op) (w : Wall) : Wall :=
  match ops with
  | [] => w
  | op :: ops' =>
      match Wall_apply method_result object_attribute op w with
      | Returned (_, w') => Wall_run ops' w'
      | _ => Wall_run ops' w
      end
  end.

End WallSession.

Definition Wall_property_names : list string :=
  map prop_name Wall_properties.

(** Every name that the module registers in the scope of [Wall]. *)
Definition Wall_registered_names : list string :=
  Wall_property_names ++ Wall_methods ++ map fst Wall_class_attributes.

(** ** The [Room] class as registered with Python

    Every member of [Room] is registered with [def_readonly]; the
    constructor is [create_room]. *)

Inductive Room_value : Type :=
| VSources (l : list Vector)
| VOrders (l : list nat)
| VFloats (l : list float)
| VGenWalls (l : list (option nat))
| VVisible (l : list (list bool))
| VWalls (l : list Wall)
| VInts (l : list Z)
| VMatrix (m : MatrixXf)
| VVector (v : Vector)
| VFloat (x : float)
| VMethod (m : string)
| VObject (o : py_object).

Record Room_property : Type := mkRoomProperty {
  rprop_name : string;
  rget : Room -> Room_value;
  rset : option (py_object -> Room -> outcome Room)
}.

Definition Room_def_readonly (n : string) (get : Room -> Room_value) : Room_property :=
  mkRoomProperty n get None.

Definition Room_properties : list Room_property :=
  [ Room_def_readonly "sources" (fun r => VSources (sources r));
    Room_def_readonly "orders" (fun r => VOrders (orders r));
    Room_def_readonly "attenuations" (fun r => VFloats (attenuations r));
    Room_def_readonly "gen_walls" (fun r => VGenWalls (gen_walls r));
    Room_def_readonly "visible_mics" (fun r => VVisible (visible_mics r));
    Room_def_readonly "walls" (fun r => VWalls (walls r));
    Room_def_readonly "obstructing_walls" (fun r => VInts (obstructing_walls r));
    Room_def_readonly "microphones" (fun r => VMatrix (microphones r));
    Room_def_readonly "mic_pos" (fun r => VVector (mic_pos r));
    Room_def_readonly "max_dist" (fun r => VFloat (max_dist r)) ]%string.

(** The functions registered with [def], and the constructor, which
    [py::init(&create_room)] registers as [__init__]. *)
Definition Room_methods : list string :=
  [ "__init__";
    "image_source_model"; "image_source_shoebox"; "get_wall";
    "get_max_distance"; "next_wall_hit"; "scat_ray"; "simul_ray";
    "get_rir_entries"; "contains" ]%string.

Definition Room_property_names : list string :=
  map rprop_name Room_properties.

(** Every name that the module registers in the scope of [Room]. *)
Definition Room_registered_names : list string :=
  Room_property_names ++ Room_methods.

Definition find_Room_property (n : string) : option Room_property :=
  find (fun p => String.eqb (rprop_name p) n) Room_properties.

Definition is_Room_method (m : string) : bool :=
  existsb (String.eqb m) Room_methods.

Section RoomClass.

(** The member functions of [Room] are defined in room.hpp; a call may
    change the room. *)
Variable Room_method :
  string -> list py_object -> Room -> outcome (Room_value * Room).

(** A name that the class does not register is looked up in what every
    Python object has, which depends on the interpreter. *)
Variable object_attribute : string -> option py_object.

Definition Room_apply (op : Wall_op) (r : Room) : outcome (Room_value * Room) :=
  match op with
  | GetAttr n =>
      match find_Room_property n with
      | Some p => Returned (rget p r, r)
      | None =>
          if is_Room_method n then Returned (VMethod n, r)
          else
            match object_attribute n with
            | Some v => Returned (VObject v, r)
            | None => Raised attribute_error
            end
      end
  | SetAttr n v =>
      match find_Room_property n with
      | Some p =>
          match rset p with
          | Some f => r' <- f v r ;; Returned (VObject PyNone, r')
          | None => Raised attribute_error
          end
      | None => Raised attribute_error
      end
  | CallMethod m args =>
      if is_Room_method m then Room_method m args r
      else Raised attribute_error
  end.

End RoomClass.

(** ** The constructor of [Wall] as registered with Python

    The constructor takes the corners, the absorption and the name; the
    last two are registered with the defaults 0 and the empty string, and
    all three with their names, so that a call may pass them by position
    or by keyword. *)

Record parameter : Type := mkParameter {
  par_name : string;
  par_default : option py_object
}.

Definition Wall_init_parameters : list parameter :=
  [ mkParameter "corners" None;
    mkParameter "absorption" (Some (PyFloat 0));
    mkParameter "name" (Some (PyStr "")) ]%string.

(** The names that the keywords of a call give. *)
Definition keywords (kwargs : list (string * py_object)) : list string :=
  map fst kwargs.

Definition lookup_keyword (n : string) (kwargs : list (string * py_object))
  : option py_object :=
  option_map snd (find (fun kv => String.eqb (fst kv) n) kwargs).

Definition remove_keyword (n : string) (kwargs : list (string * py_object))
  : list (string * py_object) :=
  filter (fun kv => negb (String.eqb (fst kv) n)) kwargs.

(** The arguments of a call, matched against the parameters: positional
    arguments fill the first parameters, and a keyword may not name one of
    those; the other parameters are taken from the keywords, or else from
    their defaults; no positional argument and no keyword may be left. *)
Fixpoint bind_arguments (params : list parameter) (args : list py_object)
         (kwargs : list (string * py_object)) : outcome (list py_object) :=
  match params with
  | [] =>
      match args, kwargs with
      | [], [] => Returned []
      | _, _ => Raised type_error
      end
  | p :: params' =>
      match args with
      | a :: args' =>
          match lookup_keyword (par_name p) kwargs with
          | Some _ => Raised type_error
          | None =>
              rest <- bind_arguments params' args' kwargs ;; Returned (a :: rest)
          end
      | [] =>
          match lookup_keyword (par_name p) kwargs with
          | Some v =>
              rest <- bind_arguments params' []
                        (remove_keyword (par_name p) kwargs) ;;
              Returned (v :: rest)
          | None =>
              match par_default p with
              | Some d =>
                  rest <- bind_arguments params' [] kwargs ;; Returned (d :: rest)
              | None => Raised type_error
              end
          end
      end
  end.

Definition load_matrix (o : py_object) : outcome MatrixXf :=
  match o with
  | PyMatrix m => Returned m
  | _ => Raised type_error
  end.

Section WallConstructor.

(** [Wall::Wall(corners, absorption, name)] is defined in wall.hpp. *)
Variable Wall_constructor : MatrixXf -> float -> string -> outcome Wall.

Definition Wall_init (args : list py_object) (kwargs : list (string * py_object))
  : outcome Wall :=
  vals <- bind_arguments Wall_init_parameters args kwargs ;;
  match vals with
  | [c; a; n] =>
      c' <- load_matrix c ;;
      a' <- load_float a ;;
      n' <- load_string n ;;
      Wall_constructor c' a' n'
  | _ => Raised type_error
  end.

End WallConstructor.

(** ** The tolerance as it is stored

    [libroom_eps] is a [float] and Python numbers are doubles.  A number is
    given here by its sign, mantissa and exponent.  Converting to [float]
    rounds to 24 bits, to the nearest number and to the even one of two
    nearest, as on the IEEE 754 platforms the module is built for;
    converting a [float] to double gives the same number. *)

Module Single.

Definition to_float (x : spec_float) : spec_float :=
  match x with
  | S754_finite s m e => binary_round 24 128 s m e
  | _ => x
  end.

Definition is_float (x : spec_float) : bool := valid_binary 24 128 x.

(** The number a finite [x] stands for. *)
Definition value (x : spec_float) : option Q :=
  match x with
  | S754_zero _ => Some 0
  | S754_finite s m e =>
      Some ((if s then - inject_Z (Zpos m) else inject_Z (Zpos m)) * Qpower 2 e)
  | _ => None
  end.

(** The literal [1e-5]: the double nearest to one hundred-thousandth. *)
Definition literal_1e_5 : spec_float :=
  S754_finite false 5902958103587057 (-69).

Record globals : Type := mkGlobals {
  libroom_eps : spec_float
}.

(** [float libroom_eps = 1e-5;] *)
Definition initial_globals : globals := mkGlobals (to_float literal_1e_5).

(** [set_eps] called from Python with the double [x]. *)
Definition set_eps (x : spec_float) (g : globals) : globals :=
  mkGlobals (to_float x).

(** [get_eps] called from Python. *)
Definition get_eps (g : globals) : spec_float := libroom_eps g.

End Single.

(** * Properties *)

(** ** Conversions of Python lists *)

Lemma push_back_all_walls (ws : list Wall) :
  forall v, push_back_all cast_Wall (map PyWall ws) v = Returned (v ++ ws).
Proof.
  induction ws as [|w ws IH]; intros v; simpl.
  - now rewrite app_nil_r.
  - rewrite IH, <- app_assoc. reflexivity.
Qed.

Lemma push_back_all_ints (zs : list Z) :
  Forall in_int_range zs ->
  forall v, push_back_all cast_int (map PyInt zs) v = Returned (v ++ zs).
Proof.
  induction 1 as [|z zs Hz _ IH]; intros v; simpl.
  - now rewrite app_nil_r.
  - destruct Hz as [Hlo Hhi].
    apply Z.leb_le in Hlo. apply Z.leb_le in Hhi.
    rewrite Hlo, Hhi. simpl. rewrite IH, <- app_assoc. reflexivity.
Qed.

Lemma cast_Wall_raises (o : py_object) (e : exn) :
  cast_Wall o = Raised e -> e = cast_error.
Proof. destruct o; simpl; congruence. Qed.

Lemma cast_int_raises (o : py_object) (e : exn) :
  cast_int o = Raised e -> e = cast_error.
Proof.
  destruct o; simpl; try congruence.
  destruct (_ && _); congruence.
Qed.

Lemma cast_Wall_defined (o : py_object) : cast_Wall o <> Undefined.
Proof. destruct o; simpl; congruence. Qed.

Lemma cast_int_defined (o : py_object) : cast_int o <> Undefined.
Proof.
  destruct o; simpl; try congruence.
  destruct (_ && _); congruence.
Qed.

(** A loop of conversions raises only what a conversion raises, on an
    element of the list. *)
Lemma push_back_all_raises {A : Type} (cast : py_object -> outcome A)
      (l : list py_object) :
  forall v e, push_back_all cast l v = Raised e ->
              exists o, In o l /\ cast o = Raised e.
Proof.
  induction l as [|o l IH]; intros v e; simpl.
  - discriminate.
  - destruct (cast o) as [x|e'|] eqn:Ho; simpl.
    + intros H. destruct (IH _ _ H) as [o' [Hin Ho']]. eauto.
    + intros H. inversion H; subst. eauto.
    + discriminate.
Qed.

Lemma push_back_all_defined {A : Type} (cast : py_object -> outcome A)
      (l : list py_object) :
  (forall o, cast o <> Undefined) ->
  forall v, push_back_all cast l v <> Undefined.
Proof.
  intros Hc. induction l as [|o l IH]; intros v; simpl.
  - discriminate.
  - destruct (cast o) as [x|e'|] eqn:Ho; simpl.
    + apply IH.
    + discriminate.
    + now apply Hc in Ho.
Qed.

(** ** Construction of a room *)

Section CreateRoomProperties.

Variable dim0 : Z.
Variable max_dist0 : float.
Variable get_max_distance : Room -> float.

Lemma create_room_returns (ws : list Wall) (zs : list Z) (m : MatrixXf)
      (w : Wall) (ws' : list Wall) (c : Vector) (cs : list Vector) :
  ws = w :: ws' ->
  Forall in_int_range zs ->
  mat_columns m = c :: cs ->
  create_room dim0 max_dist0 get_max_distance (map PyWall ws) (map PyInt zs) m =
  Returned (set_max_dist
              (get_max_distance (room_before_max_dist max_dist0 ws zs m (Wall_dim w) c))
              (room_before_max_dist max_dist0 ws zs m (Wall_dim w) c)).
Proof.
  intros Hws Hzs Hm. unfold create_room.
  rewrite push_back_all_walls. simpl.
  rewrite (push_back_all_ints zs Hzs). simpl.
  subst ws. simpl. unfold col0. rewrite Hm. simpl.
  reflexivity.
Qed.

Lemma create_room_inversion (_walls _obs : list py_object) (m : MatrixXf) (r : Room) :
  create_room dim0 max_dist0 get_max_distance _walls _obs m = Returned r ->
  exists ws os w c,
    push_back_all cast_Wall _walls [] = Returned ws /\
    push_back_all cast_int _obs [] = Returned os /\
    front ws = Returned w /\
    col0 m = Returned c /\
    r = set_max_dist
          (get_max_distance (room_before_max_dist max_dist0 ws os m (Wall_dim w) c))
          (room_before_max_dist max_dist0 ws os m (Wall_dim w) c).
Proof.
  unfold create_room. simpl.
  destruct (push_back_all cast_Wall _walls []) as [ws| |]; simpl; try discriminate.
  destruct (push_back_all cast_int _obs []) as [os| |]; simpl; try discriminate.
  destruct (front ws) as [w| |] eqn:Hw; simpl; try discriminate.
  destruct (col0 m) as [c| |] eqn:Hc; simpl; try discriminate.
  intros H. inversion H. exists ws, os, w, c. repeat split; auto.
Qed.

Lemma create_room_raises (_walls _obs : list py_object) (m : MatrixXf) (e : exn) :
  create_room dim0 max_dist0 get_max_distance _walls _obs m = Raised e ->
  e = cast_error /\
  ((exists o, In o _walls /\ cast_Wall o = Raised cast_error) \/
   (exists o, In o _obs /\ cast_int o = Raised cast_error)).
Proof.
  unfold create_room. simpl.
  destruct (push_back_all cast_Wall _walls []) as [ws|e1|] eqn:H1; simpl;
    try discriminate.
  - destruct (push_back_all cast_int _obs []) as [os|e2|] eqn:H2; simpl;
      try discriminate.
    + destruct ws as [|w ws]; simpl; try discriminate.
      unfold col0. destruct (mat_columns m) as [|c cs]; simpl; discriminate.
    + intros H. inversion H; subst e2.
      destruct (push_back_all_raises _ _ _ _ H2) as [o [Hin Ho]].
      pose proof (cast_int_raises _ _ Ho) as He. subst e. split; eauto.
  - intros H. inversion H; subst e1.
    destruct (push_back_all_raises _ _ _ _ H1) as [o [Hin Ho]].
    pose proof (cast_Wall_raises _ _ Ho) as He. subst e. split; eauto.
Qed.

(** With no wall, [walls[0]] is read from an empty vector. *)
Lemma create_room_no_wall (_obs : list Z) (m : MatrixXf) :
  Forall in_int_range _obs ->
  create_room dim0 max_dist0 get_max_distance [] (map PyInt _obs) m = Undefined.
Proof.
  intros H. unfold create_room. simpl.
  rewrite (push_back_all_ints _ H). reflexivity.
Qed.

(** C3 (amended): [create_room] does not compare the dimensions of the
    walls.  For every non-empty list of Wall objects, whatever their
    dimensions, every list of ints in range and every microphone matrix
    with at least one column, it returns a room that holds these walls and
    takes its dimension from the first of them.  The only error it raises is
    a cast error, for an element of a list that is not of the expected
    type. *)
Theorem create_room_without_validation
        (w : Wall) (ws : list Wall) (zs : list Z) (m : MatrixXf)
        (c : Vector) (cs : list Vector) :
  Forall in_int_range zs ->
  mat_columns m = c :: cs ->
  (exists r,
      create_room dim0 max_dist0 get_max_distance (map PyWall (w :: ws)) (map PyInt zs) m = Returned r /\
      walls r = w :: ws /\
      obstructing_walls r = zs /\
      dim r = Wall_dim w) /\
  (forall _walls _obs e,
      create_room dim0 max_dist0 get_max_distance _walls _obs m = Raised e ->
      e = cast_error /\
      ((exists o, In o _walls /\ cast_Wall o = Raised cast_error) \/
       (exists o, In o _obs /\ cast_int o = Raised cast_error))).
Proof.
  intros Hzs Hm. split.
  - eexists. split.
    + apply create_room_returns with (w := w) (ws' := ws) (c := c) (cs := cs); auto.
    + simpl. auto.
  - intros _walls _obs e. apply create_room_raises.
Qed.

(** C10: when the microphone matrix has a first column, the room that
    [create_room] returns has this column as [mic_pos] and, as [max_dist],
    the value of [get_max_distance] on the room as it stands when the
    bound is computed; and [create_room] does return a room for a non-empty
    list of walls and a list of ints in range. *)
Theorem create_room_reference_microphone
        (_walls _obs : list py_object) (m : MatrixXf)
        (c : Vector) (cs : list Vector) :
  mat_columns m = c :: cs ->
  (forall r,
      create_room dim0 max_dist0 get_max_distance _walls _obs m = Returned r ->
      mic_pos r = c /\
      microphones r = m /\
      max_dist r = get_max_distance (set_max_dist max_dist0 r)) /\
  (forall w ws zs,
      _walls = map PyWall (w :: ws) ->
      _obs = map PyInt zs ->
      Forall in_int_range zs ->
      exists r, create_room dim0 max_dist0 get_max_distance _walls _obs m = Returned r).
Proof.
  intros Hm. split.
  - intros r Hr.
    destruct (create_room_inversion _ _ _ _ Hr)
      as (ws & os & w & c' & _ & _ & _ & Hc & ->).
    unfold col0 in Hc. rewrite Hm in Hc. inversion Hc; subst c'.
    simpl. auto.
  - intros w ws zs -> -> Hzs. eexists.
    apply create_room_returns with (w := w) (ws' := ws) (c := c) (cs := cs); auto.
Qed.

End CreateRoomProperties.

(** C3 does not hold as stated: a 2D wall followed by a 3D wall is
    accepted, and the room is given dimension 2. *)
Lemma create_room_accepts_mixed_dimensions :
  Wall_dim wall_2d <> Wall_dim wall_3d /\
  exists r,
    create_room 0 0 (fun _ => 10) [PyWall wall_2d; PyWall wall_3d] []
                one_microphone = Returned r /\
    dim r = 2%Z.
Proof.
  split.
  - discriminate.
  - eexists. split; reflexivity.
Qed.

Lemma create_room_without_validation_witness :
  Forall in_int_range [0%Z] /\
  mat_columns one_microphone = [2; 2; 1] :: [] /\
  exists r,
    create_room 0 0 (fun _ => 10) (map PyWall [wall_2d; wall_3d])
                (map PyInt [0%Z]) one_microphone = Returned r /\
    walls r = [wall_2d; wall_3d] /\
    obstructing_walls r = [0%Z] /\
    dim r = Wall_dim wall_2d.
Proof.
  assert (H : Forall in_int_range [0%Z]).
  { repeat constructor; unfold in_int_range, INT_MIN, INT_MAX; simpl; lia. }
  split; [exact H | split; [reflexivity |]].
  exact (proj1 (create_room_without_validation 0 0 (fun _ => 10)
                  wall_2d [wall_3d] [0%Z] one_microphone [2; 2; 1] [] H eq_refl)).
Defined.

Lemma create_room_reference_microphone_witness :
  mat_columns one_microphone = [2; 2; 1] :: [] /\
  forall r,
    create_room 0 0 (fun _ => 10) [PyWall wall_3d] [] one_microphone = Returned r ->
    mic_pos r = [2; 2; 1] /\
    microphones r = one_microphone /\
    max_dist r = 10.
Proof.
  split; [reflexivity |].
  exact (proj1 (create_room_reference_microphone 0 0 (fun _ => 10)
                  [PyWall wall_3d] [] one_microphone [2; 2; 1] [] eq_refl)).
Defined.

(** ** The geometric tolerance *)

Lemma Qlt_bool_iff (x y : Q) : Qlt_bool x y = true <-> x < y.
Proof.
  unfold Qlt_bool. rewrite negb_true_iff.
  split.
  - intros H. apply Qnot_le_lt. intros Hle.
    apply Qle_bool_iff in Hle. congruence.
  - intros H. destruct (Qle_bool y x) eqn:E; [|reflexivity].
    apply Qle_bool_iff in E. exfalso. apply (Qlt_not_le _ _ H E).
Qed.

Lemma Qlt_bool_false_iff (x y : Q) : Qlt_bool x y = false <-> y <= x.
Proof.
  unfold Qlt_bool. rewrite negb_false_iff. apply Qle_bool_iff.
Qed.

(** ** The members of a wall *)

Lemma assign_absorption_geometry (a : float) (w : Wall) :
  geometry (assign_absorption a w) = geometry w.
Proof. reflexivity. Qed.

Lemma assign_name_geometry (n : string) (w : Wall) :
  geometry (assign_name n w) = geometry w.
Proof. reflexivity. Qed.

(** The setters the class registers: one for the absorption, one for the
    name, none for any other member. *)
Lemma Wall_setters (n : string) (p : property)
      (f : py_object -> Wall -> outcome Wall) :
  find_property n = Some p ->
  fset p = Some f ->
  (n = "absorption"%string /\
   f = fun v w => x <- load_float v ;; Returned (assign_absorption x w)) \/
  (n = "name"%string /\
   f = fun v w => x <- load_string v ;; Returned (assign_name x w)).
Proof.
  unfold find_property. intros Hfind Hset.
  destruct (find_some _ _ Hfind) as [Hin Hname].
  apply String.eqb_eq in Hname. subst n.
  simpl in Hin.
  repeat (destruct Hin as [<- | Hin];
          [simpl in Hset; try discriminate; inversion Hset; auto |]).
  contradiction.
Qed.

Section WallClassProperties.

Variable method_result : string -> list py_object -> Wall -> outcome py_object.
Variable object_attribute : string -> option py_object.

(** An operation that succeeds leaves the wall as it was, or assigns its
    absorption, or assigns its name. *)
Lemma Wall_apply_effect (op : Wall_op) (w w' : Wall) (v : py_object) :
  Wall_apply method_result object_attribute op w = Returned (v, w') ->
  w' = w \/
  (exists o a, op = SetAttr "absorption" o /\ w' = assign_absorption a w) \/
  (exists o n, op = SetAttr "name" o /\ w' = assign_name n w).
Proof.
  destruct op as [n | n o | m args]; simpl.
  - destruct (find_property n) as [p|].
    + intros H. inversion H. auto.
    + destruct (is_method n); [intros H; inversion H; auto |].
      destruct (find_class_attribute n); [intros H; inversion H; auto |].
      destruct (object_attribute n); intros H; inversion H. auto.
  - destruct (find_property n) as [p|] eqn:Hp; [|discriminate].
    destruct (fset p) as [f|] eqn:Hf; [|discriminate].
    destruct (Wall_setters _ _ _ Hp Hf) as [[-> ->] | [-> ->]].
    + destruct (load_float o) as [a| |]; simpl; try discriminate.
      intros H. inversion H. right. left. eauto.
    + destruct (load_string o) as [s| |]; simpl; try discriminate.
      intros H. inversion H. right. right. eauto.
  - destruct (is_method m); [|discriminate].
    destruct (method_result m args w); simpl; try discriminate.
    intros H. inversion H. auto.
Qed.

(** C9: an operation on a wall changes none of its geometric members
    (dim, corners, origin, normal, basis, flat_corners); what it can change
    is the absorption and the name, and assigning these does update them. *)
Theorem Wall_geometry_is_immutable (op : Wall_op) (w w' : Wall) (v : py_object) :
  Wall_apply method_result object_attribute op w = Returned (v, w') ->
  geometry w' = geometry w /\
  (w' = w \/
   (exists o a, op = SetAttr "absorption" o /\ w' = assign_absorption a w) \/
   (exists o n, op = SetAttr "name" o /\ w' = assign_name n w)) /\
  (forall a, Wall_apply method_result object_attribute
                        (SetAttr "absorption" (PyFloat a)) w
             = Returned (PyNone, assign_absorption a w)) /\
  (forall n, Wall_apply method_result object_attribute
                        (SetAttr "name" (PyStr n)) w
             = Returned (PyNone, assign_name n w)).
Proof.
  intros H. pose proof (Wall_apply_effect _ _ _ _ H) as Heff.
  repeat split; auto.
  destruct Heff as [-> | [(o & a & _ & ->) | (o & n & _ & ->)]]; reflexivity.
Qed.

(** Assigning a geometric member is refused. *)
Lemma Wall_geometry_setattr_refused (n : string) (o : py_object) (w : Wall) :
  In n ["dim"; "corners"; "origin"; "normal"; "basis"; "flat_corners"]%string ->
  Wall_apply method_result object_attribute (SetAttr n o) w
  = Raised attribute_error.
Proof.
  simpl. intros H.
  repeat (destruct H as [<- | H]; [reflexivity |]).
  contradiction.
Qed.

End WallClassProperties.

Lemma Wall_geometry_is_immutable_witness :
  Wall_apply (fun _ _ _ => Returned PyNone) (fun _ => None)
             (SetAttr "absorption" (PyFloat (1 # 2))) wall_3d
  = Returned (PyNone, assign_absorption (1 # 2) wall_3d) /\
  geometry (assign_absorption (1 # 2) wall_3d) = geometry wall_3d.
Proof.
  split; [reflexivity |].
  exact (proj1 (Wall_geometry_is_immutable (fun _ _ _ => Returned PyNone)
                  (fun _ => None)
                  (SetAttr "absorption" (PyFloat (1 # 2))) wall_3d
                  (assign_absorption (1 # 2) wall_3d) PyNone eq_refl)).
Defined.

(** ** Vector arithmetic *)

Lemma vec_eq_trans (u v t : Vector) : vec_eq u v -> vec_eq v t -> vec_eq u t.
Proof.
  unfold vec_eq. intros H. revert t.
  induction H as [|x y u v Hxy _ IH]; intros t Ht; inversion Ht; subst.
  - constructor.
  - constructor; [etransitivity; eassumption | now apply IH].
Qed.

(** ** Reflection across a wall *)

Lemma dot_reflected (n : Vector) :
  forall o p c,
    List.length o = List.length n ->
    List.length p = List.length n ->
    dot n (vsub o (vadd p (vscale c n))) == dot n (vsub o p) - c * dot n n.
Proof.
  induction n as [|x n IH]; intros [|y o] [|z p] c Ho Hp; simpl in *;
    try discriminate.
  - ring.
  - rewrite IH by congruence. unfold vscale. ring.
Qed.

(** Two steps along the normal are one step. *)
Lemma vadd_vscale_twice (n : Vector) :
  forall p c c' k,
    List.length p = List.length n ->
    c + c' == k ->
    vec_eq (vadd (vadd p (vscale c n)) (vscale c' n)) (vadd p (vscale k n)).
Proof.
  unfold vec_eq.
  induction n as [|x n IH]; intros [|z p] c c' k Hp Hk; simpl in *;
    try discriminate.
  - constructor.
  - constructor.
    + rewrite <- Hk. ring.
    + apply IH; [congruence | exact Hk].
Qed.

Lemma dist2_two_steps (n : Vector) :
  forall p c c' k,
    List.length p = List.length n ->
    c + c' == k ->
    dist2 (vadd (vadd p (vscale c n)) (vscale c' n)) p == k * k * dot n n.
Proof.
  unfold dist2.
  induction n as [|x n IH]; intros [|z p] c c' k Hp Hk; simpl in *;
    try discriminate.
  - ring.
  - rewrite (IH p c c' k) by (congruence || exact Hk). rewrite <- Hk. ring.
Qed.

Lemma vadd_vscale_zero (n : Vector) :
  forall p k,
    List.length p = List.length n ->
    k == 0 ->
    vec_eq (vadd p (vscale k n)) p.
Proof.
  unfold vec_eq.
  induction n as [|x n IH]; intros [|z p] k Hp Hk; simpl in *;
    try discriminate.
  - constructor.
  - constructor.
    + rewrite Hk. ring.
    + apply IH; [congruence | exact Hk].
Qed.

(** The second reflection undoes the first up to the excess of the
    normal. *)
Lemma second_reflection_step (w : Wall) (p : Vector) :
  same_dimension w p ->
  2 * dot (normal w) (vsub (origin w) p)
  + 2 * dot (normal w) (vsub (origin w) (Wall_reflect w p))
  == -4 * normal_excess w * dot (normal w) (vsub (origin w) p).
Proof.
  intros (Ho & Hn & Hp).
  assert (Hlo : List.length (origin w) = List.length (normal w)) by lia.
  assert (Hlp : List.length p = List.length (normal w)) by lia.
  unfold Wall_reflect, normal_excess.
  rewrite (dot_reflected (normal w) (origin w) p _ Hlo Hlp). ring.
Qed.



(** The coordinate of the normal of [wall_45] is a single-precision
    number, and the one nearest to the square root of one half: one half
    lies between the squares of the two midpoints next to it. *)
Lemma wall_45_normal_is_nearest :
  Single.is_float (S754_finite false 11863283 (-24)) = true /\
  Single.value (S754_finite false 11863283 (-24)) = Some (11863283 # 16777216) /\
  ((11863283 # 16777216) - Qpower 2 (-25)) * ((11863283 # 16777216) - Qpower 2 (-25))
  < 1 # 2 /\
  1 # 2
  < ((11863283 # 16777216) + Qpower 2 (-25)) * ((11863283 # 16777216) + Qpower 2 (-25)).
Proof.
  split; [reflexivity | split; [vm_compute; reflexivity | split]];
    vm_compute; reflexivity.
Qed.


(** ** The image-source search *)

Lemma combine_seq_In {A : Type} (l : list A) :
  forall s i x,
    In (i, x) (combine (seq s (List.length l)) l) ->
    (s <= i)%nat /\ nth_error l (i - s) = Some x.
Proof.
  induction l as [|y l IH]; intros s i x; simpl.
  - contradiction.
  - intros [H | H].
    + inversion H; subst. rewrite Nat.sub_diag. auto.
    + apply IH in H. destruct H as [Hle Hnth]. split; [lia |].
      replace (i - s)%nat with (S (i - S s)) by lia. exact Hnth.
Qed.

Lemma enumerate_In {A : Type} (l : list A) (i : nat) (x : A) :
  In (i, x) (enumerate l) -> nth_error l i = Some x.
Proof.
  intros H. apply combine_seq_In in H. destruct H as [_ H].
  now rewrite Nat.sub_0_r in H.
Qed.

Lemma nth_error_combine_seq {A : Type} (l : list A) :
  forall s i x,
    nth_error l i = Some x ->
    In ((s + i)%nat, x) (combine (seq s (List.length l)) l).
Proof.
  induction l as [|y l IH]; intros s [|i] x; simpl; try discriminate.
  - intros H. inversion H. left. now rewrite Nat.add_0_r.
  - intros H. right. replace (s + S i)%nat with (S s + i)%nat by lia.
    now apply IH.
Qed.

Lemma nth_error_enumerate {A : Type} (l : list A) (i : nat) (x : A) :
  nth_error l i = Some x -> In (i, x) (enumerate l).
Proof. intros H. apply (nth_error_combine_seq l 0 i x H). Qed.

Lemma zip_records_map (imgs : list ImageSource) :
  zip_records (map position imgs) (map order imgs) (map attenuation imgs)
  = map record_of imgs.
Proof.
  induction imgs as [|img imgs IH]; simpl; [reflexivity | now rewrite IH].
Qed.

Lemma image_records_append (imgs : list ImageSource) (r : Room) :
  no_images r ->
  image_records (append_images imgs r) = map record_of imgs.
Proof.
  intros (Hs & Ho & Ha). unfold image_records, append_images. simpl.
  rewrite Hs, Ho, Ha. simpl. apply zip_records_map.
Qed.

Section ImageSourceProperties.

Variable is_visible : Room -> Vector -> option nat -> Vector -> bool.
Variable g : globals.
Variable room : Room.

(** An accepted reflection: its wall, and what it records. *)
Lemma children_inversion (img c : ImageSource) :
  In c (children is_visible g room img) ->
  exists i w,
    nth_error (walls room) i = Some w /\
    Wall_side g w (Wall_reflect w (position img)) <> Behind /\
    position c = Wall_reflect w (position img) /\
    order c = S (order img) /\
    attenuation c = attenuation img * (1 - absorption w) /\
    gen_wall c = Some i.
Proof.
  unfold children. rewrite in_flat_map. intros [[i w] [Hin Hc]].
  apply enumerate_In in Hin. unfold reflect_image in Hc.
  exists i, w.
  destruct (Wall_side g w (Wall_reflect w (position img))) eqn:Hside;
    simpl in Hc; try contradiction;
    destruct Hc as [<- | []]; simpl; repeat split; auto; discriminate.
Qed.

(** Every record of the search is reached from its root along a path of
    walls of the room, one wall for each order gained. *)
Lemma image_sources_path (depth : nat) :
  forall img r,
    In r (image_sources is_visible g room depth img) ->
    exists path,
      (List.length path <= depth)%nat /\
      Forall (fun i => (i < List.length (walls room))%nat) path /\
      order r = (order img + List.length path)%nat /\
      position r = reflect_along room path (position img) /\
      attenuation r == attenuation img * path_attenuation room path.
Proof.
  induction depth as [|depth IH]; intros img r; simpl.
  - intros [<- | []]. exists []. simpl.
    repeat split; auto; try lia; ring.
  - intros [<- | H].
    + exists []. simpl. repeat split; auto; try lia; ring.
    + apply in_flat_map in H. destruct H as [c [Hc Hr]].
      apply children_inversion in Hc.
      destruct Hc as (i & w & Hw & _ & Hpos & Hord & Hatt & _).
      destruct (IH _ _ Hr) as (path & Hlen & Hvalid & Ho & Hp & Ha).
      exists (i :: path). simpl. repeat split.
      * lia.
      * constructor; [|exact Hvalid].
        apply nth_error_Some. congruence.
      * lia.
      * rewrite Hw, <- Hpos. exact Hp.
      * unfold wall_absorption at 1. rewrite Hw, Ha, Hatt. ring.
Qed.

(** C2: every record that [image_source_model] produces at order k has a
    path of exactly k walls of the room from which it results: its
    position is the source reflected across these walls in turn, and its
    attenuation is the product of 1 - absorption over them; at order 0 the
    attenuation is 1. *)
Theorem attenuation_is_product_over_path
        (source p : Vector) (max_order k : nat) (a : float) :
  no_images room ->
  In (p, k, a)
     (image_records (image_source_model is_visible g room source max_order)) ->
  (exists path,
      List.length path = k /\
      Forall (fun i => (i < List.length (walls room))%nat) path /\
      p = reflect_along room path source /\
      a == path_attenuation room path) /\
  (k = 0%nat -> a == 1).
Proof.
  intros Hfresh Hin. unfold image_source_model in Hin.
  rewrite image_records_append in Hin by exact Hfresh.
  apply in_map_iff in Hin. destruct Hin as [r [Hr Hin]].
  inversion Hr; subst p k a. clear Hr.
  destruct (image_sources_path _ _ _ Hin)
    as (path & _ & Hvalid & Ho & Hp & Ha).
  simpl in Ho, Hp, Ha.
  assert (Hatt : attenuation r == path_attenuation room path)
    by (rewrite Ha; ring).
  split.
  - exists path. repeat split; auto.
  - intros H0. rewrite H0 in Ho. destruct path; [|discriminate].
    exact Hatt.
Qed.

End ImageSourceProperties.

(** In the corridor, the image of order 2 behind the left wall, reached by
    the right wall and then the left one, has attenuation
    (1 - 1/2) (1 - 1/4). *)
Lemma attenuation_is_product_over_path_witness :
  no_images corridor /\
  In ([-7; 0], 2%nat, 1 * (1 - (1 # 2)) * (1 - (1 # 4)))
     (image_records
        (image_source_model always_visible initial_globals corridor [1; 0] 2)) /\
  exists path,
    List.length path = 2%nat /\
    Forall (fun i => (i < List.length (walls corridor))%nat) path /\
    [-7; 0] = reflect_along corridor path [1; 0] /\
    1 * (1 - (1 # 2)) * (1 - (1 # 4)) == path_attenuation corridor path.
Proof.
  assert (Hfresh : no_images corridor) by (repeat split).
  assert (Hin : In ([-7; 0], 2%nat, 1 * (1 - (1 # 2)) * (1 - (1 # 4)))
     (image_records
        (image_source_model always_visible initial_globals corridor [1; 0] 2))).
  { vm_compute. tauto. }
  split; [exact Hfresh | split; [exact Hin |]].
  exact (proj1 (attenuation_is_product_over_path always_visible initial_globals
                  corridor [1; 0] [-7; 0] 2 2 _ Hfresh Hin)).
Defined.

(** ** Images of a shoebox along one axis *)

Lemma image_coord_even (L s : Q) (n : Z) :
  Z.even n = true -> image_coord L s n = inject_Z n * L + s.
Proof. unfold image_coord. now intros ->. Qed.

Lemma image_coord_odd (L s : Q) (n : Z) :
  Z.even n = false -> image_coord L s n = inject_Z (n + 1) * L - s.
Proof. unfold image_coord. now intros ->. Qed.

(** Mirroring across the wall through the origin. *)
Lemma image_coord_mirror_near (L s : Q) (n : Z) :
  - image_coord L s n == image_coord L s (- n - 1).
Proof.
  destruct (Z.even n) eqn:E.
  - rewrite (image_coord_even L s n E).
    rewrite image_coord_odd.
    + replace (- n - 1 + 1)%Z with (- n)%Z by lia.
      rewrite inject_Z_opp. ring.
    + rewrite Z.even_sub, Z.even_opp, E. reflexivity.
  - rewrite (image_coord_odd L s n E).
    rewrite image_coord_even.
    + replace (- n - 1)%Z with (- (n + 1))%Z by lia.
      rewrite inject_Z_opp. ring.
    + rewrite Z.even_sub, Z.even_opp, E. reflexivity.
Qed.

(** Mirroring across the opposite wall. *)
Lemma image_coord_mirror_far (L s : Q) (n : Z) :
  2 * L - image_coord L s n == image_coord L s (1 - n).
Proof.
  destruct (Z.even n) eqn:E.
  - rewrite (image_coord_even L s n E).
    rewrite image_coord_odd.
    + replace (1 - n + 1)%Z with (2 + - n)%Z by lia.
      rewrite (inject_Z_plus 2), inject_Z_opp. change (inject_Z 2) with 2. ring.
    + rewrite Z.even_sub, E. reflexivity.
  - rewrite (image_coord_odd L s n E).
    rewrite image_coord_even.
    + replace (1 - n)%Z with (2 + - (n + 1))%Z by lia.
      rewrite (inject_Z_plus 2), inject_Z_opp. change (inject_Z 2) with 2. ring.
    + rewrite Z.even_sub, E. reflexivity.
Qed.

Lemma inject_Z_le (a b : Z) : (a <= b)%Z -> inject_Z a <= inject_Z b.
Proof. intros H. now rewrite <- Zle_Qle. Qed.

Lemma odd_nonneg_ge_1 (n : Z) : Z.even n = false -> (0 <= n)%Z -> (1 <= n)%Z.
Proof.
  intros E H. destruct (Z.eq_dec n 0) as [-> | Hn]; [discriminate | lia].
Qed.

Lemma even_neg_le_m2 (n : Z) : Z.even n = true -> (n < 0)%Z -> (n <= -2)%Z.
Proof.
  intros E H. destruct (Z.eq_dec n (-1)) as [-> | Hn]; [discriminate | lia].
Qed.

Lemma even_pos_ge_2 (n : Z) : Z.even n = true -> (0 < n)%Z -> (2 <= n)%Z.
Proof.
  intros E H. destruct (Z.eq_dec n 1) as [-> | Hn]; [discriminate | lia].
Qed.

Section AxisBounds.

Variables L s eps : Q.
Hypothesis Heps : 0 <= eps.
Hypothesis Hlo : eps < s.
Hypothesis Hhi : s < L - eps.

(** On the inner side of the wall through the origin lie the images with
    a lattice index that is not negative, beyond it the others; all of
    them further from the wall than the tolerance. *)
Lemma image_coord_inside_near (n : Z) :
  (0 <= n)%Z -> eps < image_coord L s n.
Proof.
  intros Hn. destruct (Z.even n) eqn:E.
  - rewrite (image_coord_even L s n E).
    pose proof (inject_Z_le 0 n Hn) as H. change (inject_Z 0) with 0 in H.
    nra.
  - rewrite (image_coord_odd L s n E).
    pose proof (odd_nonneg_ge_1 n E Hn) as H1.
    pose proof (inject_Z_le 2 (n + 1) ltac:(lia)) as H.
    change (inject_Z 2) with 2 in H. nra.
Qed.

Lemma image_coord_beyond_near (n : Z) :
  (n < 0)%Z -> image_coord L s n < - eps.
Proof.
  intros Hn. destruct (Z.even n) eqn:E.
  - rewrite (image_coord_even L s n E).
    pose proof (even_neg_le_m2 n E Hn) as H2.
    pose proof (inject_Z_le n (-2) H2) as H.
    change (inject_Z (-2)) with (-2 # 1) in H. nra.
  - rewrite (image_coord_odd L s n E).
    pose proof (inject_Z_le (n + 1) 0 ltac:(lia)) as H.
    change (inject_Z 0) with 0 in H. nra.
Qed.

Lemma image_coord_inside_far (n : Z) :
  (n <= 0)%Z -> image_coord L s n < L - eps.
Proof.
  intros Hn. destruct (Z.even n) eqn:E.
  - rewrite (image_coord_even L s n E).
    pose proof (inject_Z_le n 0 Hn) as H. change (inject_Z 0) with 0 in H.
    nra.
  - rewrite (image_coord_odd L s n E).
    assert (Hn1 : (n + 1 <= 0)%Z).
    { destruct (Z.eq_dec n 0) as [-> | ?]; [discriminate | lia]. }
    pose proof (inject_Z_le (n + 1) 0 Hn1) as H.
    change (inject_Z 0) with 0 in H. nra.
Qed.

Lemma image_coord_beyond_far (n : Z) :
  (0 < n)%Z -> L + eps < image_coord L s n.
Proof.
  intros Hn. destruct (Z.even n) eqn:E.
  - rewrite (image_coord_even L s n E).
    pose proof (even_pos_ge_2 n E Hn) as H2.
    pose proof (inject_Z_le 2 n H2) as H.
    change (inject_Z 2) with 2 in H. nra.
  - rewrite (image_coord_odd L s n E).
    pose proof (inject_Z_le 2 (n + 1) ltac:(lia)) as H.
    change (inject_Z 2) with 2 in H. nra.
Qed.

End AxisBounds.

Lemma bounces_step (far : bool) (a a' : Z) :
  axis_step far a = Some a' ->
  Z.abs a' = (Z.abs a + 1)%Z /\
  bounces far a' = S (bounces far a) /\
  bounces (negb far) a' = bounces (negb far) a.
Proof.
  unfold axis_step, bounces, bounces_lo, bounces_hi.
  destruct far; cbv [negb].
  - destruct (Z.leb_spec a 0) as [Ha | Ha]; [|discriminate].
    intros H. assert (Ha' : a' = (1 - a)%Z) by congruence. clear H.
    destruct (Z.ltb_spec a' 0) as [H1 | H1]; [lia |].
    destruct (Z.ltb_spec a 0) as [H2 | H2];
      repeat split; try lia; zify; Z.div_mod_to_equations; lia.
  - destruct (Z.leb_spec 0 a) as [Ha | Ha]; [|discriminate].
    intros H. assert (Ha' : a' = (- a - 1)%Z) by congruence. clear H.
    destruct (Z.ltb_spec a' 0) as [H1 | H1]; [|lia].
    destruct (Z.ltb_spec a 0) as [H2 | H2]; [lia |].
    repeat split; try lia; zify; Z.div_mod_to_equations; lia.
Qed.

Section AxisSteps.

Variables L s eps : Q.
Hypothesis Heps : 0 <= eps.
Hypothesis Hlo : eps < s.
Hypothesis Hhi : s < L - eps.

(** An accepted reflection along one axis: the image is on the inner side
    of the wall, by more than the tolerance, and its mirror image is the
    image of the next lattice index. *)
Lemma axis_step_accepts (far : bool) (a a' : Z) :
  axis_step far a = Some a' ->
  eps < (if far then 1 else -1) * ((if far then L else 0) - image_coord L s a) /\
  2 * (if far then L else 0) - image_coord L s a == image_coord L s a'.
Proof.
  unfold axis_step. destruct far.
  - destruct (Z.leb_spec a 0) as [Ha | Ha]; [|discriminate].
    intros H. assert (Ha' : a' = (1 - a)%Z) by congruence. subst a'. split.
    + pose proof (image_coord_inside_far L s eps Heps Hlo Hhi a Ha). lra.
    + apply image_coord_mirror_far.
  - destruct (Z.leb_spec 0 a) as [Ha | Ha]; [|discriminate].
    intros H. assert (Ha' : a' = (- a - 1)%Z) by congruence. subst a'. split.
    + pose proof (image_coord_inside_near L s eps Heps Hlo Hhi a Ha). lra.
    + rewrite <- image_coord_mirror_near. ring.
Qed.

(** A rejected reflection: the image is beyond the wall. *)
Lemma axis_step_rejects (far : bool) (a : Z) :
  axis_step far a = None ->
  (if far then 1 else -1) * ((if far then L else 0) - image_coord L s a) < - eps.
Proof.
  unfold axis_step. destruct far.
  - destruct (Z.leb_spec a 0) as [Ha | Ha]; [discriminate |].
    intros _.
    pose proof (image_coord_beyond_far L s eps Heps Hlo Hhi a Ha). lra.
  - destruct (Z.leb_spec 0 a) as [Ha | Ha]; [discriminate |].
    intros _.
    pose proof (image_coord_beyond_near L s eps Heps Hlo Hhi a Ha). lra.
Qed.

End AxisSteps.

(** ** Reflection across a wall of a shoebox *)

Lemma axis_wall_reflect (axis : nat) (far : bool) (level : Q) (w : Wall)
      (x y z : Q) :
  (axis < 3)%nat ->
  axis_wall axis (outward far) level w ->
  vec_eq (Wall_reflect w [x; y; z]) (mirror_coord axis level [x; y; z]) /\
  plane_offset w (Wall_reflect w [x; y; z])
  == outward far * (level - coord axis [x; y; z]).
Proof.
  unfold outward. intros Haxis (_ & Hlen & Hlevel & Hnormal).
  destruct (origin w) as [|o0 [|o1 [|o2 [|? ?]]]] eqn:Ho; try discriminate.
  unfold vec_eq in Hnormal.
  inversion Hnormal as [|n0 m0 ns ms Hn0 Hrest0 E0]; subst.
  inversion Hrest0 as [|n1 m1 ns1 ms1 Hn1 Hrest1 E1]; subst.
  inversion Hrest1 as [|n2 m2 ns2 ms2 Hn2 Hrest2 E2]; subst.
  inversion Hrest2; subst.
  match goal with H : _ = normal w |- _ => symmetry in H; rename H into Hn end.
  unfold Wall_reflect, plane_offset, mirror_coord, vec_eq, coord in *.
  rewrite Hn, Ho.
  destruct axis as [|[|[|axis]]]; [| | |lia]; simpl in *;
    destruct far; split; repeat constructor;
      rewrite ?Hn0, ?Hn1, ?Hn2; try rewrite Hlevel; ring_simplify;
        try rewrite Hlevel; ring.
Qed.

Lemma vec_eq3_inv (v : Vector) (X Y Z : Q) :
  vec_eq v [X; Y; Z] ->
  exists x y z, v = [x; y; z] /\ x == X /\ y == Y /\ z == Z.
Proof.
  intros H.
  inversion H as [|x X' v1 V1 Hx H1 E1 E1']; subst.
  inversion H1 as [|y Y' v2 V2 Hy H2 E2 E2']; subst.
  inversion H2 as [|z Z' v3 V3 Hz H3 E3 E3']; subst.
  inversion H3; subst.
  exists x, y, z. auto.
Qed.

Section ShoeboxWalls.

Variable is_visible : Room -> Vector -> option nat -> Vector -> bool.
Variable g : globals.
Variable room : Room.
Hypothesis Heps : 0 <= libroom_eps g.

(** The reflection of an image across a wall of a shoebox is accepted when
    the image is on the inner side of the wall and rejected when it is
    beyond it. *)
Lemma reflect_image_axis_wall (axis i : nat) (far : bool) (level : Q)
      (w : Wall) (img : ImageSource) (x y z : Q) :
  (axis < 3)%nat ->
  axis_wall axis (outward far) level w ->
  position img = [x; y; z] ->
  (libroom_eps g < outward far * (level - coord axis [x; y; z]) ->
   exists c,
     reflect_image is_visible g room img (i, w) = [c] /\
     vec_eq (position c) (mirror_coord axis level [x; y; z]) /\
     order c = S (order img) /\
     attenuation c = attenuation img * (1 - absorption w)) /\
  (outward far * (level - coord axis [x; y; z]) < - libroom_eps g ->
   reflect_image is_visible g room img (i, w) = []).
Proof.
  intros Haxis Hw Hpos.
  destruct (axis_wall_reflect axis far level w x y z Haxis Hw) as [Hr Hoff].
  unfold reflect_image, Wall_side. rewrite Hpos. split.
  - intros Hd.
    assert (H1 : Qlt_bool (libroom_eps g)
                          (plane_offset w (Wall_reflect w [x; y; z])) = true).
    { apply Qlt_bool_iff. rewrite Hoff. exact Hd. }
    rewrite H1. eexists. split; [reflexivity |]. simpl. auto.
  - intros Hd.
    assert (H1 : Qlt_bool (libroom_eps g)
                          (plane_offset w (Wall_reflect w [x; y; z])) = false).
    { apply Qlt_bool_false_iff. rewrite Hoff. lra. }
    assert (H2 : Qlt_bool (plane_offset w (Wall_reflect w [x; y; z]))
                          (- libroom_eps g) = true).
    { apply Qlt_bool_iff. rewrite Hoff. exact Hd. }
    rewrite H1, H2. reflexivity.
Qed.

End ShoeboxWalls.

(** ** The lattice of a shoebox *)

Lemma lattice_range_In (N : nat) (a : Z) :
  In a (lattice_range N) <-> (Z.abs a <= Z.of_nat N)%Z.
Proof.
  unfold lattice_range. rewrite in_map_iff. split.
  - intros (i & Hi & Hin). apply in_seq in Hin. lia.
  - intros H. exists (Z.to_nat (a + Z.of_nat N)). split; [lia |].
    apply in_seq. lia.
Qed.

Lemma lattice_order_nonneg (m : Z * Z * Z) : (0 <= lattice_order m)%Z.
Proof. destruct m as [[a b] c]. unfold lattice_order. lia. Qed.

Lemma lattice_In (N : nat) (m : Z * Z * Z) :
  In m (lattice N) <-> (lattice_order m <= Z.of_nat N)%Z.
Proof.
  unfold lattice. split.
  - intros H.
    apply in_flat_map in H. destruct H as (a & _ & H).
    apply in_flat_map in H. destruct H as (b & _ & H).
    apply in_flat_map in H. destruct H as (c & _ & H).
    destruct (Z.leb_spec (lattice_order (a, b, c)) (Z.of_nat N)) as [Hle | Hgt].
    + destruct H as [<- | []]. exact Hle.
    + contradiction.
  - destruct m as [[a b] c]. intros H.
    assert (Hle := H). unfold lattice_order in Hle.
    apply in_flat_map. exists a. split; [apply lattice_range_In; lia |].
    apply in_flat_map. exists b. split; [apply lattice_range_In; lia |].
    apply in_flat_map. exists c. split; [apply lattice_range_In; lia |].
    apply Z.leb_le in H. rewrite H. left. reflexivity.
Qed.

Lemma record_eq_sym (r1 r2 : Vector * nat * float) :
  record_eq r1 r2 -> record_eq r2 r1.
Proof.
  intros (Hp & Ho & Ha). repeat split.
  - unfold vec_eq in *. clear Ho Ha.
    induction Hp; constructor; [symmetry; assumption | assumption].
  - now symmetry.
  - now symmetry.
Qed.

(** ** The two searches on a shoebox *)

Section ShoeboxProperties.

Variable is_visible : Room -> Vector -> option nat -> Vector -> bool.
Variable g : globals.
Variable room : Room.
Variables Lx Ly Lz sx sy sz : Q.
Hypothesis Hbox : is_shoebox Lx Ly Lz room.
Hypothesis Heps : 0 <= libroom_eps g.
Hypothesis Hsx : libroom_eps g < sx /\ sx < Lx - libroom_eps g.
Hypothesis Hsy : libroom_eps g < sy /\ sy < Ly - libroom_eps g.
Hypothesis Hsz : libroom_eps g < sz /\ sz < Lz - libroom_eps g.

(** One wall of the shoebox: [Hw] states where wall [w] lies, across
    [axis]; [a] is the lattice index of the image along that axis; [Hp],
    [Hord], [Hatt] and [Hwalls] describe the image and the room. *)
Ltac shoebox_wall axis i far level w Hw L s Hs1 Hs2 a Hp Hord Hatt Hwalls :=
  let a' := fresh "a'" in
  let Hstep := fresh "Hstep" in
  let Hd := fresh "Hd" in
  let Hm := fresh "Hm" in
  let Habs := fresh "Habs" in
  let Hb1 := fresh "Hb1" in
  let Hb2 := fresh "Hb2" in
  let c' := fresh "c'" in
  let Hc := fresh "Hc" in
  let Hcpos := fresh "Hcpos" in
  let Hcord := fresh "Hcord" in
  let Hcatt := fresh "Hcatt" in
  let p := fresh "p" in
  let q := fresh "q" in
  let r := fresh "r" in
  let Hcp := fresh "Hcp" in
  let Hcx := fresh "Hcx" in
  let Hcy := fresh "Hcy" in
  let Hcz := fresh "Hcz" in
  unfold lattice_step;
  destruct (axis_step far a) as [a'|] eqn:Hstep; simpl;
  [ destruct (axis_step_accepts L s (libroom_eps g) Heps Hs1 Hs2 far a a' Hstep)
      as [Hd Hm];
    destruct (bounces_step far a a' Hstep) as (Habs & Hb1 & Hb2);
    match goal with
    | Hpos : position ?img = [?x; ?y; ?z] |- _ =>
        destruct (proj1 (reflect_image_axis_wall is_visible g room Heps
                           axis i far level w img x y z ltac:(lia) Hw Hpos))
          as (c' & Hc & Hcpos & Hcord & Hcatt);
        [ unfold outward, coord; simpl;
          repeat match goal with H : ?v == image_coord _ _ _ |- _ => is_var v; rewrite H end;
          exact Hd |]
    end;
    exists c'; split; [exact Hc |]; split; [| lia];
    unfold mirror_coord, coord in Hcpos; simpl in Hcpos;
    apply vec_eq3_inv in Hcpos;
    destruct Hcpos as (p & q & r & Hcp & Hcx & Hcy & Hcz);
    unfold image_eq, record_eq, record_of; simpl;
    rewrite Hcp, Hcord, Hcatt, Hord, Hatt;
    split; [| split];
    [ repeat constructor; rewrite ?Hcx, ?Hcy, ?Hcz;
      repeat match goal with H : ?v == image_coord _ _ _ |- _ => is_var v; rewrite H end;
      try reflexivity; exact Hm
    | lia
    | unfold axis_attenuation, wall_absorption; rewrite Hwalls;
      simpl nth_error; cbv iota;
      cbv [bounces negb] in Hb1, Hb2; rewrite Hb1, Hb2; simpl qpow; ring ]
  | match goal with
    | Hpos : position ?img = [?x; ?y; ?z] |- _ =>
        apply (proj2 (reflect_image_axis_wall is_visible g room Heps
                        axis i far level w img x y z ltac:(lia) Hw Hpos))
    end;
    unfold outward, coord; simpl;
    repeat match goal with H : ?v == image_coord _ _ _ |- _ => is_var v; rewrite H end;
    exact (axis_step_rejects L s (libroom_eps g) Heps Hs1 Hs2 far a Hstep) ].

(** The reflection of a lattice image across wall [i] is accepted exactly
    when the lattice has a step across this wall, and is then the image of
    the next lattice point. *)
Lemma reflect_image_lattice (i : nat) (w : Wall) (n : Z * Z * Z) (img : ImageSource) :
  nth_error (walls room) i = Some w ->
  image_eq img (shoebox_image is_visible room [sx; sy; sz] [Lx; Ly; Lz] n) ->
  match lattice_step i n with
  | Some n' =>
      exists c,
        reflect_image is_visible g room img (i, w) = [c] /\
        image_eq c (shoebox_image is_visible room [sx; sy; sz] [Lx; Ly; Lz] n') /\
        lattice_order n' = (lattice_order n + 1)%Z
  | None => reflect_image is_visible g room img (i, w) = []
  end.
Proof.
  destruct Hbox
    as (w0 & w1 & w2 & w3 & w4 & w5 & Hwalls & H0 & H1 & H2 & H3 & H4 & H5).
  destruct Hsx as [Hsx1 Hsx2]. destruct Hsy as [Hsy1 Hsy2].
  destruct Hsz as [Hsz1 Hsz2].
  intros Hnth Himg. rewrite Hwalls in Hnth.
  destruct n as [[a b] c].
  destruct Himg as (Hpos & Hord & Hatt).
  unfold record_of, shoebox_image, coord in Hpos, Hord, Hatt.
  simpl in Hpos, Hord, Hatt.
  apply vec_eq3_inv in Hpos. destruct Hpos as (x & y & z & Hp & Hx & Hy & Hz).
  destruct i as [|[|[|[|[|[|i]]]]]]; simpl in Hnth;
    try (destruct i; discriminate); injection Hnth as <-.
  - shoebox_wall 0%nat 0%nat false 0 w0 H0 Lx sx Hsx1 Hsx2 a Hp Hord Hatt Hwalls.
  - shoebox_wall 0%nat 1%nat true Lx w1 H1 Lx sx Hsx1 Hsx2 a Hp Hord Hatt Hwalls.
  - shoebox_wall 1%nat 2%nat false 0 w2 H2 Ly sy Hsy1 Hsy2 b Hp Hord Hatt Hwalls.
  - shoebox_wall 1%nat 3%nat true Ly w3 H3 Ly sy Hsy1 Hsy2 b Hp Hord Hatt Hwalls.
  - shoebox_wall 2%nat 4%nat false 0 w4 H4 Lz sz Hsz1 Hsz2 c Hp Hord Hatt Hwalls.
  - shoebox_wall 2%nat 5%nat true Lz w5 H5 Lz sz Hsz1 Hsz2 c Hp Hord Hatt Hwalls.
Qed.

Lemma children_intro (img c : ImageSource) (i : nat) (w : Wall) :
  nth_error (walls room) i = Some w ->
  In c (reflect_image is_visible g room img (i, w)) ->
  In c (children is_visible g room img).
Proof.
  intros Hnth Hc. unfold children. apply in_flat_map.
  exists (i, w). split; [now apply nth_error_enumerate | exact Hc].
Qed.

(** Every record of the general search on a shoebox is a lattice image. *)
Lemma image_sources_in_lattice (depth : nat) :
  forall img n r,
    image_eq img (shoebox_image is_visible room [sx; sy; sz] [Lx; Ly; Lz] n) ->
    In r (image_sources is_visible g room depth img) ->
    exists m,
      (lattice_order m <= lattice_order n + Z.of_nat depth)%Z /\
      image_eq r (shoebox_image is_visible room [sx; sy; sz] [Lx; Ly; Lz] m).
Proof.
  induction depth as [|depth IH]; intros img n r Himg Hr.
  - destruct Hr as [<- | []]. exists n. split; [lia | exact Himg].
  - destruct Hr as [<- | Hr].
    + exists n. split; [lia | exact Himg].
    + apply in_flat_map in Hr. destruct Hr as [c [Hc Hr]].
      unfold children in Hc. apply in_flat_map in Hc.
      destruct Hc as [[i w] [Hiw Hc]].
      apply enumerate_In in Hiw.
      pose proof (reflect_image_lattice i w n img Hiw Himg) as Hstep.
      destruct (lattice_step i n) as [n'|].
      * destruct Hstep as (c0 & Hc0 & Heq & Hord).
        rewrite Hc0 in Hc. destruct Hc as [<- | []].
        destruct (IH c0 n' r Heq Hr) as (m & Hm & Hrm).
        exists m. split; [lia | exact Hrm].
      * rewrite Hstep in Hc. contradiction.
Qed.

(** The search expands every record it holds that is below the depth
    bound. *)
Lemma image_sources_closed (depth : nat) :
  forall root r c,
    In r (image_sources is_visible g room depth root) ->
    (order r < order root + depth)%nat ->
    In c (children is_visible g room r) ->
    In c (image_sources is_visible g room depth root).
Proof.
  induction depth as [|depth IH]; intros root r c Hr Hord Hc.
  - destruct Hr as [<- | []]. lia.
  - destruct Hr as [<- | Hr].
    + right. apply in_flat_map. exists c. split; [exact Hc |].
      destruct depth; left; reflexivity.
    + right. apply in_flat_map in Hr. destruct Hr as [c0 [Hc0 Hr]].
      apply in_flat_map. exists c0. split; [exact Hc0 |].
      apply (IH c0 r c Hr); [| exact Hc].
      apply children_inversion in Hc0.
      destruct Hc0 as (i & w & _ & _ & _ & Ho & _). lia.
Qed.

(** Every lattice point other than the source has a neighbour one order
    below from which a wall leads to it. *)
Lemma lattice_parent (m : Z * Z * Z) (k : nat) :
  lattice_order m = Z.of_nat (S k) ->
  exists n i,
    (i < 6)%nat /\ lattice_step i n = Some m /\ lattice_order n = Z.of_nat k.
Proof.
  destruct m as [[a b] c]. unfold lattice_order. intros H.
  destruct (Z.lt_trichotomy a 0) as [Ha | [Ha | Ha]].
  - exists (- a - 1, b, c)%Z, 0%nat. split; [lia |]. split; [| lia].
    unfold lattice_step, axis_step.
    destruct (Z.leb_spec 0 (- a - 1)) as [_ | ?]; [| lia].
    cbv [option_map]. repeat (f_equal; try lia).
  - destruct (Z.lt_trichotomy b 0) as [Hb | [Hb | Hb]].
    + exists (a, - b - 1, c)%Z, 2%nat. split; [lia |]. split; [| lia].
      unfold lattice_step, axis_step.
      destruct (Z.leb_spec 0 (- b - 1)) as [_ | ?]; [| lia].
      cbv [option_map]. repeat (f_equal; try lia).
    + destruct (Z.lt_trichotomy c 0) as [Hc | [Hc | Hc]].
      * exists (a, b, - c - 1)%Z, 4%nat. split; [lia |]. split; [| lia].
        unfold lattice_step, axis_step.
        destruct (Z.leb_spec 0 (- c - 1)) as [_ | ?]; [| lia].
        cbv [option_map]. repeat (f_equal; try lia).
      * lia.
      * exists (a, b, 1 - c)%Z, 5%nat. split; [lia |]. split; [| lia].
        unfold lattice_step, axis_step.
        destruct (Z.leb_spec (1 - c) 0) as [_ | ?]; [| lia].
        cbv [option_map]. repeat (f_equal; try lia).
    + exists (a, 1 - b, c)%Z, 3%nat. split; [lia |]. split; [| lia].
      unfold lattice_step, axis_step.
      destruct (Z.leb_spec (1 - b) 0) as [_ | ?]; [| lia].
      cbv [option_map]. repeat (f_equal; try lia).
  - exists (1 - a, b, c)%Z, 1%nat. split; [lia |]. split; [| lia].
    unfold lattice_step, axis_step.
    destruct (Z.leb_spec (1 - a) 0) as [_ | ?]; [| lia].
    cbv [option_map]. repeat (f_equal; try lia).
Qed.

Lemma real_source_is_lattice_origin :
  image_eq (real_source is_visible room [sx; sy; sz])
           (shoebox_image is_visible room [sx; sy; sz] [Lx; Ly; Lz] (0, 0, 0)%Z).
Proof.
  unfold image_eq, record_eq, record_of, real_source, shoebox_image; simpl.
  split; [| split].
  - unfold coord, image_coord; simpl. repeat constructor; ring.
  - reflexivity.
  - unfold axis_attenuation, bounces_lo, bounces_hi; simpl. ring.
Qed.

(** Every lattice image up to the order bound is found by the general
    search. *)
Lemma lattice_image_reached (N k : nat) :
  forall m,
    lattice_order m = Z.of_nat k ->
    (k <= N)%nat ->
    exists r,
      In r (image_sources is_visible g room N
                          (real_source is_visible room [sx; sy; sz])) /\
      image_eq r (shoebox_image is_visible room [sx; sy; sz] [Lx; Ly; Lz] m).
Proof.
  induction k as [|k IH]; intros m Hm Hk.
  - destruct m as [[a b] c]. unfold lattice_order in Hm.
    assert (a = 0%Z) by lia. assert (b = 0%Z) by lia. assert (c = 0%Z) by lia.
    subst a b c.
    exists (real_source is_visible room [sx; sy; sz]). split.
    + destruct N; left; reflexivity.
    + exact real_source_is_lattice_origin.
  - destruct (lattice_parent m k Hm) as (n & i & Hi & Hstep & Hn).
    destruct (IH n Hn ltac:(lia)) as (r & Hr & Hrn).
    assert (Hw : exists w, nth_error (walls room) i = Some w).
    { destruct Hbox as (w0 & w1 & w2 & w3 & w4 & w5 & Hwalls & _).
      rewrite Hwalls.
      destruct i as [|[|[|[|[|[|i]]]]]]; simpl; eauto. lia. }
    destruct Hw as [w Hw].
    pose proof (reflect_image_lattice i w n r Hw Hrn) as Hrefl.
    rewrite Hstep in Hrefl. destruct Hrefl as (c & Hc & Hcm & _).
    exists c. split; [| exact Hcm].
    apply (image_sources_closed N _ r c Hr).
    + destruct n as [[na nb] nc]. destruct Hrn as (_ & Hord & _).
      unfold record_of, shoebox_image, lattice_order in Hord, Hn.
      simpl in Hord. simpl. lia.
    + apply (children_intro r c i w Hw). rewrite Hc. left. reflexivity.
Qed.


End ShoeboxProperties.

Lemma box_4_3_2_is_shoebox : is_shoebox 4 3 2 box_4_3_2.
Proof.
  unfold is_shoebox, box_4_3_2. do 6 eexists.
  split; [reflexivity |].
  repeat split; repeat constructor; reflexivity.
Qed.


(** ** The scenario of the specification *)

(** The square room, source at (1,1), maximum order 1: the source itself
    with attenuation 1, and one image per wall with attenuation 0.8. *)
Lemma square_room_order_1 :
  map reduced
      (image_records
         (image_source_model always_visible initial_globals square_room [1; 1] 1))
  = [ ([1; 1], 0%nat, 1);
      ([1; -1], 1%nat, 4 # 5);
      ([7; 1], 1%nat, 4 # 5);
      ([1; 7], 1%nat, 4 # 5);
      ([-1; 1], 1%nat, 4 # 5) ].
Proof. vm_compute. reflexivity. Qed.

(** The two searches agree as sets, not as lists: the general search holds
    one record for each order in which the walls of a path can be taken. *)
Lemma box_4_3_2_record_counts :
  List.length
    (image_records
       (image_source_model always_visible initial_globals box_4_3_2 [1; 1; 1] 3))
  = 163%nat /\
  List.length
    (image_records
       (image_source_shoebox always_visible box_4_3_2 [1; 1; 1] [4; 3; 2] 3))
  = 63%nat.
Proof. split; vm_compute; reflexivity. Qed.

(** * Further properties of the binding layer *)

(** ** The lists that convert *)

Lemma is_Wall_object_cast (o : py_object) :
  (is_Wall_object o = true -> exists w, o = PyWall w /\ cast_Wall o = Returned w) /\
  (is_Wall_object o = false -> cast_Wall o = Raised cast_error).
Proof. destruct o; simpl; split; intros H; try discriminate; eauto. Qed.

Lemma is_int_object_cast (o : py_object) :
  (is_int_object o = true ->
   exists z, o = PyInt z /\ in_int_range z /\ cast_int o = Returned z) /\
  (is_int_object o = false -> cast_int o = Raised cast_error).
Proof.
  destruct o; simpl; split; intros H; try discriminate; auto.
  - exists z. rewrite H. split; [reflexivity | split; [| reflexivity]].
    apply andb_true_iff in H. destruct H as [H1 H2].
    apply Z.leb_le in H1. apply Z.leb_le in H2. split; assumption.
  - now rewrite H.
Qed.

Lemma all_Wall_objects (l : list py_object) :
  forallb is_Wall_object l = true -> exists ws, l = map PyWall ws.
Proof.
  induction l as [|o l IH]; simpl; intros H.
  - exists []. reflexivity.
  - apply andb_true_iff in H. destruct H as [Ho Hl].
    destruct (proj1 (is_Wall_object_cast o) Ho) as (w & -> & _).
    destruct (IH Hl) as [ws ->]. exists (w :: ws). reflexivity.
Qed.

Lemma all_int_objects (l : list py_object) :
  forallb is_int_object l = true ->
  exists zs, l = map PyInt zs /\ Forall in_int_range zs.
Proof.
  induction l as [|o l IH]; simpl; intros H.
  - exists []. split; [reflexivity | constructor].
  - apply andb_true_iff in H. destruct H as [Ho Hl].
    destruct (proj1 (is_int_object_cast o) Ho) as (z & -> & Hz & _).
    destruct (IH Hl) as (zs & -> & Hzs). exists (z :: zs).
    split; [reflexivity | now constructor].
Qed.

Lemma map_PyWall_all (ws : list Wall) :
  forallb is_Wall_object (map PyWall ws) = true.
Proof. induction ws; simpl; auto. Qed.

Lemma map_PyInt_all (zs : list Z) :
  Forall in_int_range zs -> forallb is_int_object (map PyInt zs) = true.
Proof.
  induction 1 as [|z zs [Hlo Hhi] _ IH]; simpl; auto.
  apply Z.leb_le in Hlo. apply Z.leb_le in Hhi. now rewrite Hlo, Hhi, IH.
Qed.

(** A loop of conversions stops at the first element that does not
    convert. *)
Lemma push_back_all_first_failure {A : Type} (cast : py_object -> outcome A)
      (accepts : py_object -> bool) (l : list py_object) :
  (forall o, accepts o = true -> exists x, cast o = Returned x) ->
  (forall o, accepts o = false -> cast o = Raised cast_error) ->
  forallb accepts l = false ->
  forall v, push_back_all cast l v = Raised cast_error.
Proof.
  intros Hyes Hno. induction l as [|o l IH]; simpl; intros H v.
  - discriminate.
  - destruct (accepts o) eqn:Ho.
    + destruct (Hyes o Ho) as [x ->]. simpl. apply IH. exact H.
    + rewrite (Hno o Ho). reflexivity.
Qed.

Lemma push_back_all_Wall_failure (l : list py_object) (v : list Wall) :
  forallb is_Wall_object l = false ->
  push_back_all cast_Wall l v = Raised cast_error.
Proof.
  intros H. apply (push_back_all_first_failure cast_Wall is_Wall_object); auto.
  - intros o Ho. destruct (proj1 (is_Wall_object_cast o) Ho) as (w & _ & Hw). eauto.
  - intros o. apply is_Wall_object_cast.
Qed.

Lemma push_back_all_int_failure (l : list py_object) (v : list Z) :
  forallb is_int_object l = false ->
  push_back_all cast_int l v = Raised cast_error.
Proof.
  intros H. apply (push_back_all_first_failure cast_int is_int_object); auto.
  - intros o Ho. destruct (proj1 (is_int_object_cast o) Ho) as (z & _ & _ & Hz). eauto.
  - intros o. apply is_int_object_cast.
Qed.

(** ** The three outcomes of [create_room] *)

Section CreateRoomOutcomes.

Variable dim0 : Z.
Variable max_dist0 : float.
Variable get_max_distance : Room -> float.

(** The outcome of [create_room], by cases on its arguments. *)
Lemma create_room_cases (_walls _obs : list py_object) (m : MatrixXf) :
  match forallb is_Wall_object _walls, forallb is_int_object _obs with
  | false, _ | true, false =>
      create_room dim0 max_dist0 get_max_distance _walls _obs m = Raised cast_error
  | true, true =>
      match _walls, mat_columns m with
      | [], _ | _, [] =>
          create_room dim0 max_dist0 get_max_distance _walls _obs m = Undefined
      | _ :: _, _ :: _ =>
          exists r,
            create_room dim0 max_dist0 get_max_distance _walls _obs m = Returned r
      end
  end.
Proof.
  destruct (forallb is_Wall_object _walls) eqn:Hw.
  - destruct (all_Wall_objects _ Hw) as [ws ->].
    destruct (forallb is_int_object _obs) eqn:Ho.
    + destruct (all_int_objects _ Ho) as (zs & -> & Hzs).
      destruct ws as [|w ws]; simpl map.
      * apply create_room_no_wall. exact Hzs.
      * destruct (mat_columns m) as [|c cs] eqn:Hm.
        -- unfold create_room. simpl.
           rewrite (push_back_all_walls ws [w]).
           simpl. rewrite (push_back_all_ints zs Hzs). simpl.
           unfold col0. rewrite Hm. reflexivity.
        -- eexists.
           apply (create_room_returns dim0 max_dist0 get_max_distance
                    (w :: ws) zs m w ws c cs eq_refl Hzs Hm).
    + unfold create_room. simpl. rewrite push_back_all_walls. simpl.
      rewrite (push_back_all_int_failure _ _ Ho). reflexivity.
  - unfold create_room. simpl.
    rewrite (push_back_all_Wall_failure _ _ Hw). reflexivity.
Qed.

(** What [create_room] was given when it returns a room. *)
Lemma create_room_returned_inputs
      (_walls _obs : list py_object) (m : MatrixXf) (r : Room) :
  create_room dim0 max_dist0 get_max_distance _walls _obs m = Returned r ->
  exists w ws zs c cs,
    _walls = map PyWall (w :: ws) /\
    _obs = map PyInt zs /\
    Forall in_int_range zs /\
    mat_columns m = c :: cs /\
    r = set_max_dist
          (get_max_distance
             (room_before_max_dist max_dist0 (w :: ws) zs m (Wall_dim w) c))
          (room_before_max_dist max_dist0 (w :: ws) zs m (Wall_dim w) c).
Proof.
  intros Hr. pose proof (create_room_cases _walls _obs m) as H.
  destruct (forallb is_Wall_object _walls) eqn:Hw,
           (forallb is_int_object _obs) eqn:Ho; try congruence.
  destruct (all_Wall_objects _ Hw) as [ws ->].
  destruct (all_int_objects _ Ho) as (zs & -> & Hzs).
  destruct ws as [|w ws]; simpl map in H, Hr; cbv beta iota in H;
    [congruence |].
  destruct (mat_columns m) as [|c cs] eqn:Hm; [congruence |].
  exists w, ws, zs, c, cs. repeat split; auto.
  change (PyWall w :: map PyWall ws) with (map PyWall (w :: ws)) in Hr.
  rewrite (create_room_returns dim0 max_dist0 get_max_distance
             (w :: ws) zs m w ws c cs eq_refl Hzs Hm) in Hr.
  congruence.
Qed.

(** X1: [create_room] returns a room exactly when every element of the wall
    list is a Wall, every element of the obstructing list is an int in the
    32-bit range, there is at least one wall and the microphone matrix has
    at least one column. *)
Theorem create_room_returns_iff (_walls _obs : list py_object) (m : MatrixXf) :
  (exists r, create_room dim0 max_dist0 get_max_distance _walls _obs m = Returned r)
  <->
  forallb is_Wall_object _walls = true /\
  forallb is_int_object _obs = true /\
  _walls <> [] /\
  mat_columns m <> [].
Proof.
  pose proof (create_room_cases _walls _obs m) as H.
  destruct (forallb is_Wall_object _walls), (forallb is_int_object _obs);
    try (split; [intros [r Hr]; congruence | intros (? & ? & _); discriminate]).
  destruct _walls as [|o l], (mat_columns m) as [|c cs];
    try (split; [intros [r Hr]; congruence | intros (_ & _ & ? & ?); congruence]).
  split; [intros _; repeat split; discriminate | intros _; exact H].
Qed.

(** X2: [create_room] raises exactly when an element of the wall list is
    not a Wall or an element of the obstructing list is not an int in range,
    whatever the microphones and however many walls there are; what it
    raises is a cast error. *)
Theorem create_room_raises_iff (_walls _obs : list py_object) (m : MatrixXf)
        (e : exn) :
  create_room dim0 max_dist0 get_max_distance _walls _obs m = Raised e
  <->
  e = cast_error /\
  forallb is_Wall_object _walls && forallb is_int_object _obs = false.
Proof.
  pose proof (create_room_cases _walls _obs m) as H.
  destruct (forallb is_Wall_object _walls), (forallb is_int_object _obs); simpl;
    try (rewrite H; split; [intros [= <-]; auto | intros [-> _]; reflexivity]).
  destruct _walls as [|o l], (mat_columns m) as [|c cs];
    try (rewrite H; split; [discriminate | intros [_ ?]; discriminate]).
  destruct H as [r ->]. split; [discriminate | intros [_ ?]; discriminate].
Qed.

(** X3: the behaviour of [create_room] is undefined exactly when both lists
    convert and either there is no wall ([walls[0]] is read from an empty
    vector) or the microphone matrix has no column ([col(0)] does not
    exist). *)
Theorem create_room_undefined_iff (_walls _obs : list py_object) (m : MatrixXf) :
  create_room dim0 max_dist0 get_max_distance _walls _obs m = Undefined
  <->
  forallb is_Wall_object _walls = true /\
  forallb is_int_object _obs = true /\
  (_walls = [] \/ mat_columns m = []).
Proof.
  pose proof (create_room_cases _walls _obs m) as H.
  destruct (forallb is_Wall_object _walls), (forallb is_int_object _obs);
    try (rewrite H; split; [discriminate | intros (? & ? & _); discriminate]).
  destruct _walls as [|o l], (mat_columns m) as [|c cs];
    try (rewrite H; split; [intros _; auto | reflexivity]).
  destruct H as [r ->].
  split; [discriminate | intros (_ & _ & [? | ?]); discriminate].
Qed.

(** X4: the room that [create_room] returns holds what it was given: the
    two Python lists are its walls and its obstructing indices, element by
    element and in order, and the matrix is its microphones.  Its dimension
    is that of its first wall, its indices are in the 32-bit range, and it
    holds no image source. *)
Theorem create_room_holds_its_arguments
        (_walls _obs : list py_object) (m : MatrixXf) (r : Room) :
  create_room dim0 max_dist0 get_max_distance _walls _obs m = Returned r ->
  _walls = map PyWall (walls r) /\
  _obs = map PyInt (obstructing_walls r) /\
  microphones r = m /\
  (exists w ws, walls r = w :: ws /\ dim r = Wall_dim w) /\
  Forall in_int_range (obstructing_walls r) /\
  no_images r /\ gen_walls r = [] /\ visible_mics r = [].
Proof.
  intros Hr.
  destruct (create_room_returned_inputs _walls _obs m r Hr)
    as (w & ws & zs & c & cs & -> & -> & Hzs & Hm & ->).
  simpl. repeat split; eauto.
Qed.

(** X5: [create_room] does not check that an obstructing index names a
    wall: an index in the 32-bit range that is negative, or not below the
    number of walls, is stored like any other. *)
Theorem create_room_keeps_dangling_index
        (w : Wall) (ws : list Wall) (zs : list Z) (z : Z)
        (m : MatrixXf) (c : Vector) (cs : list Vector) :
  Forall in_int_range zs ->
  In z zs ->
  ~ (0 <= z < Z.of_nat (List.length (w :: ws)))%Z ->
  mat_columns m = c :: cs ->
  exists r,
    create_room dim0 max_dist0 get_max_distance
                (map PyWall (w :: ws)) (map PyInt zs) m = Returned r /\
    In z (obstructing_walls r) /\
    ((z < 0)%Z \/ nth_error (walls r) (Z.to_nat z) = None).
Proof.
  intros Hzs Hin Hbad Hm.
  pose proof (create_room_returns dim0 max_dist0 get_max_distance
                (w :: ws) zs m w ws c cs eq_refl Hzs Hm) as Hr.
  eexists. split; [exact Hr |]. simpl. split; [exact Hin |].
  destruct (Z.ltb_spec z 0) as [Hneg | Hpos]; [left; exact Hneg | right].
  apply nth_error_None. simpl in *. lia.
Qed.

End CreateRoomOutcomes.

Lemma create_room_holds_its_arguments_witness :
  create_room 0 0 (fun _ => 10) [PyWall wall_2d; PyWall wall_3d] [PyInt 1]
              one_microphone
  = Returned (mkRoom 2 [wall_2d; wall_3d] [1%Z] one_microphone [2; 2; 1] 10
                     [] [] [] [] []) /\
  [PyWall wall_2d; PyWall wall_3d]
  = map PyWall (walls (mkRoom 2 [wall_2d; wall_3d] [1%Z] one_microphone
                              [2; 2; 1] 10 [] [] [] [] [])).
Proof.
  assert (H : create_room 0 0 (fun _ => 10) [PyWall wall_2d; PyWall wall_3d]
                          [PyInt 1] one_microphone
              = Returned (mkRoom 2 [wall_2d; wall_3d] [1%Z] one_microphone
                                 [2; 2; 1] 10 [] [] [] [] []))
    by reflexivity.
  split; [exact H |].
  exact (proj1 (create_room_holds_its_arguments 0 0 (fun _ => 10) _ _ _ _ H)).
Defined.

(** Index 7 in a room of one wall. *)
Lemma create_room_keeps_dangling_index_witness :
  Forall in_int_range [7%Z] /\
  In 7%Z [7%Z] /\
  ~ (0 <= 7 < Z.of_nat (List.length [wall_3d]))%Z /\
  mat_columns one_microphone = [[2; 2; 1]] /\
  exists r,
    create_room 0 0 (fun _ => 10) (map PyWall [wall_3d]) (map PyInt [7%Z])
                one_microphone = Returned r /\
    In 7%Z (obstructing_walls r) /\
    ((7 < 0)%Z \/ nth_error (walls r) (Z.to_nat 7) = None).
Proof.
  assert (H1 : Forall in_int_range [7%Z]).
  { repeat constructor; unfold in_int_range, INT_MIN, INT_MAX; simpl; lia. }
  assert (H2 : In 7%Z [7%Z]) by (left; reflexivity).
  assert (H3 : ~ (0 <= 7 < Z.of_nat (List.length [wall_3d]))%Z) by (simpl; lia).
  split; [exact H1 | split; [exact H2 | split; [exact H3 | split; [reflexivity |]]]].
  exact (create_room_keeps_dangling_index 0 0 (fun _ => 10) wall_3d [] [7%Z] 7
           one_microphone [2; 2; 1] [] H1 H2 H3 eq_refl).
Defined.

(** ** Attributes of a wall *)

Lemma find_property_name (n : string) (p : property) :
  find_property n = Some p -> In p Wall_properties /\ prop_name p = n.
Proof.
  unfold find_property. intros H. apply find_some in H.
  destruct H as [Hin Hn]. apply String.eqb_eq in Hn. auto.
Qed.

Lemma find_property_absorption :
  find_property "absorption"
  = Some (def_readwrite "absorption" (fun w => PyFloat (absorption w))
                        load_float assign_absorption).
Proof. reflexivity. Qed.

Lemma find_property_name_attr :
  find_property "name"
  = Some (def_readwrite "name" (fun w => PyStr (name w)) load_string assign_name).
Proof. reflexivity. Qed.

Lemma load_string_inversion (v : py_object) (s : string) :
  load_string v = Returned s -> v = PyStr s.
Proof. destruct v; simpl; congruence. Qed.

Lemma load_float_raises (v : py_object) (e : exn) :
  load_float v = Raised e -> e = type_error.
Proof. destruct v; simpl; congruence. Qed.

Lemma load_string_raises (v : py_object) (e : exn) :
  load_string v = Raised e -> e = type_error.
Proof. destruct v; simpl; congruence. Qed.

Section WallAttributes.

Variable method_result : string -> list py_object -> Wall -> outcome py_object.
Variable object_attribute : string -> option py_object.

(** X6: assigning an attribute of a wall succeeds only for absorption with
    a number and for name with a string, and then assigns that member.
    With a value of another type it raises a TypeError; for every other
    attribute name, the geometric members and the methods among them, it
    raises an AttributeError.  It has no other outcome. *)
Theorem Wall_setattr_outcome (n : string) (v : py_object) (w : Wall) :
  match Wall_apply method_result object_attribute (SetAttr n v) w with
  | Returned (x, w') =>
      x = PyNone /\
      ((n = "absorption"%string /\
        exists a, load_float v = Returned a /\ w' = assign_absorption a w) \/
       (n = "name"%string /\
        exists s, v = PyStr s /\ w' = assign_name s w))
  | Raised e =>
      (e = type_error /\ (n = "absorption"%string \/ n = "name"%string)) \/
      (e = attribute_error /\ n <> "absorption"%string /\ n <> "name"%string)
  | Undefined => False
  end.
Proof.
  simpl. destruct (find_property n) as [p|] eqn:Hp.
  - destruct (fset p) as [f|] eqn:Hf.
    + destruct (Wall_setters n p f Hp Hf) as [[-> ->] | [-> ->]].
      * destruct (load_float v) as [a| e |] eqn:Hv; simpl.
        -- split; [reflexivity |]. left. eauto.
        -- left. split; [exact (load_float_raises v e Hv) | auto].
        -- destruct v; discriminate.
      * destruct (load_string v) as [s| e |] eqn:Hv; simpl.
        -- split; [reflexivity |]. right. split; [reflexivity |].
           exists s. split; [exact (load_string_inversion v s Hv) | reflexivity].
        -- left. split; [exact (load_string_raises v e Hv) | auto].
        -- destruct v; discriminate.
    + right. split; [reflexivity |].
      split; intros ->.
      * rewrite find_property_absorption in Hp. inversion Hp; subst p.
        discriminate.
      * rewrite find_property_name_attr in Hp. inversion Hp; subst p.
        discriminate.
  - right. split; [reflexivity |].
    split; intros ->; discriminate.
Qed.

(** X7: after an attribute of a wall has been assigned, reading it gives
    the value assigned (a number is read back as a float), and reading any
    other attribute gives what it gave before. *)
Theorem Wall_setattr_then_getattr
        (n : string) (v x : py_object) (w w' : Wall) :
  Wall_apply method_result object_attribute (SetAttr n v) w = Returned (x, w') ->
  (exists y,
      Wall_apply method_result object_attribute (GetAttr n) w'
      = Returned (y, w') /\
      ((exists a, load_float v = Returned a /\ y = PyFloat a) \/
       (exists s, v = PyStr s /\ y = PyStr s))) /\
  (forall n',
      n' <> n ->
      Wall_apply method_result object_attribute (GetAttr n') w' =
      match Wall_apply method_result object_attribute (GetAttr n') w with
      | Returned (y, _) => Returned (y, w')
      | other => other
      end).
Proof.
  intros H.
  assert (Hcase : (n = "absorption"%string /\
                   exists a, load_float v = Returned a /\
                             w' = assign_absorption a w) \/
                  (n = "name"%string /\
                   exists s, v = PyStr s /\ w' = assign_name s w)).
  { simpl in H.
    destruct (find_property n) as [p|] eqn:Hp; [| discriminate].
    destruct (fset p) as [f|] eqn:Hf; [| discriminate].
    destruct (Wall_setters n p f Hp Hf) as [[-> ->] | [-> ->]].
    - destruct (load_float v) as [a| |] eqn:Hv; simpl in H; try discriminate.
      inversion H. left. eauto.
    - destruct (load_string v) as [s| |] eqn:Hv; simpl in H; try discriminate.
      inversion H. right. split; [reflexivity |].
      exists s. split; [exact (load_string_inversion v s Hv) | reflexivity]. }
  split.
  - destruct Hcase as [(-> & a & Ha & ->) | (-> & s & -> & ->)].
    + eexists. split; [reflexivity |]. left. eauto.
    + eexists. split; [reflexivity |]. right. eauto.
  - intros n' Hn'. simpl.
    destruct (find_property n') as [p|] eqn:Hp.
    + f_equal. f_equal.
      destruct (find_property_name n' p Hp) as [Hin Hname]. subst n'.
      simpl in Hin.
      destruct Hcase as [(-> & a & Ha & ->) | (-> & s & -> & ->)];
        repeat (destruct Hin as [<- | Hin];
                [first [reflexivity | exfalso; apply Hn'; reflexivity] |]);
        contradiction.
    + destruct (is_method n'); [reflexivity |].
      destruct (find_class_attribute n'); [reflexivity |].
      destruct (object_attribute n'); reflexivity.
Qed.

(** X8: reading an attribute of a wall succeeds for every name that the
    module registers in the scope of the class: the eight members, the six
    functions, the constructor [__init__], the enumeration [Isect] and its
    four exported values; and it leaves the wall as it is.  A name that
    the module does not register is looked up in what every Python object
    has, and raises an AttributeError when that has no such attribute. *)
Theorem Wall_getattr_outcome (n : string) (w : Wall) :
  (In n Wall_registered_names ->
   exists y,
     Wall_apply method_result object_attribute (GetAttr n) w = Returned (y, w)) /\
  (~ In n Wall_registered_names ->
   Wall_apply method_result object_attribute (GetAttr n) w =
   match object_attribute n with
   | Some y => Returned (y, w)
   | None => Raised attribute_error
   end).
Proof.
  split.
  - intros H. simpl in H.
    repeat (destruct H as [<- | H]; [eexists; reflexivity |]).
    contradiction.
  - intros H. simpl.
    destruct (find_property n) as [p|] eqn:Hp.
    + exfalso. apply H. apply in_or_app. left.
      destruct (find_property_name n p Hp) as [Hin <-].
      unfold Wall_property_names. now apply in_map.
    + destruct (is_method n) eqn:Hm.
      * exfalso. apply H. apply in_or_app. right. apply in_or_app. left.
        unfold is_method in Hm. apply existsb_exists in Hm.
        destruct Hm as (m & Hin & Heq). apply String.eqb_eq in Heq. now subst m.
      * unfold find_class_attribute.
        destruct (find _ Wall_class_attributes) as [[k y]|] eqn:Hc; simpl;
          [| reflexivity].
        exfalso. apply H. apply in_or_app. right. apply in_or_app. right.
        apply find_some in Hc. destruct Hc as [Hin Hk]. simpl in Hk.
        apply String.eqb_eq in Hk. subst k.
        apply in_map_iff. exists (n, y). auto.
Qed.

(** X9: whatever operations a Python session applies to a wall, and
    whichever of them raise, the wall keeps its geometric members. *)
Theorem Wall_run_keeps_geometry (ops : list Wall_op) (w : Wall) :
  geometry (Wall_run method_result object_attribute ops w) = geometry w.
Proof.
  revert w. induction ops as [|op ops IH]; intros w; simpl.
  - reflexivity.
  - destruct (Wall_apply method_result object_attribute op w)
      as [[y w']| e |] eqn:Hop; try apply IH.
    rewrite IH.
    destruct (Wall_apply_effect method_result object_attribute op w w' y Hop)
      as [-> | [(o & a & _ & ->) | (o & s & _ & ->)]]; reflexivity.
Qed.

End WallAttributes.

Lemma Wall_setattr_then_getattr_witness :
  Wall_apply (fun _ _ _ => Returned PyNone) (fun _ => None)
             (SetAttr "absorption" (PyInt 1)) wall_3d
  = Returned (PyNone, assign_absorption 1 wall_3d) /\
  Wall_apply (fun _ _ _ => Returned PyNone) (fun _ => None) (GetAttr "name")
             (assign_absorption 1 wall_3d)
  = Returned (PyStr "floor", assign_absorption 1 wall_3d).
Proof.
  assert (H : Wall_apply (fun _ _ _ => Returned PyNone) (fun _ => None)
                         (SetAttr "absorption" (PyInt 1)) wall_3d
              = Returned (PyNone, assign_absorption 1 wall_3d)) by reflexivity.
  split; [exact H |].
  exact (proj2 (Wall_setattr_then_getattr (fun _ _ _ => Returned PyNone)
                  (fun _ => None)
                  "absorption" (PyInt 1) PyNone wall_3d _ H)
               "name"%string ltac:(discriminate)).
Defined.

(** The exported value [NONE] of the enumeration is read through a wall;
    [weight] is not a registered name. *)
Lemma Wall_getattr_outcome_witness :
  In "NONE"%string Wall_registered_names /\
  (exists y,
      Wall_apply (fun _ _ _ => Returned PyNone) (fun _ => None)
                 (GetAttr "NONE") wall_3d
      = Returned (y, wall_3d)) /\
  ~ In "weight"%string Wall_registered_names /\
  Wall_apply (fun _ _ _ => Returned PyNone) (fun _ => None)
             (GetAttr "weight") wall_3d
  = Raised attribute_error.
Proof.
  assert (Hin : In "NONE"%string Wall_registered_names)
    by (simpl; intuition congruence).
  assert (Hout : ~ In "weight"%string Wall_registered_names)
    by (simpl; intuition discriminate).
  split; [exact Hin | split; [| split; [exact Hout |]]].
  - exact (proj1 (Wall_getattr_outcome (fun _ _ _ => Returned PyNone)
                    (fun _ => None) "NONE" wall_3d) Hin).
  - exact (proj2 (Wall_getattr_outcome (fun _ _ _ => Returned PyNone)
                    (fun _ => None) "weight" wall_3d) Hout).
Defined.

(** ** Attributes of a room *)

Lemma find_Room_property_name (n : string) (p : Room_property) :
  find_Room_property n = Some p -> In p Room_properties /\ rprop_name p = n.
Proof.
  unfold find_Room_property. intros H. apply find_some in H.
  destruct H as [Hin Hn]. apply String.eqb_eq in Hn. auto.
Qed.

(** No member of a room is registered with a setter. *)
Lemma Room_properties_have_no_setter (p : Room_property) :
  In p Room_properties -> rset p = None.
Proof.
  simpl. intros H.
  repeat (destruct H as [<- | H]; [reflexivity |]).
  contradiction.
Qed.

Section RoomAttributes.

Variable Room_method :
  string -> list py_object -> Room -> outcome (Room_value * Room).
Variable object_attribute : string -> option py_object.

(** X10: no attribute of a room can be assigned: whatever the name and the
    value, the assignment raises an AttributeError.  Reading an attribute
    leaves the room as it is.  So the only operations that can change a
    room are calls of its methods. *)
Theorem Room_attributes_are_read_only (op : Wall_op) (r : Room) :
  (forall n v,
      Room_apply Room_method object_attribute (SetAttr n v) r
      = Raised attribute_error) /\
  (forall y r',
      Room_apply Room_method object_attribute op r = Returned (y, r') ->
      r' = r \/ exists m args, op = CallMethod m args /\ In m Room_methods).
Proof.
  split.
  - intros n v. simpl.
    destruct (find_Room_property n) as [p|] eqn:Hp; [| reflexivity].
    destruct (find_Room_property_name n p Hp) as [Hin _].
    now rewrite (Room_properties_have_no_setter p Hin).
  - intros y r'. destruct op as [n | n v | m args]; simpl.
    + destruct (find_Room_property n) as [p|].
      * intros [= _ <-]. auto.
      * destruct (is_Room_method n); [intros [= _ <-]; auto |].
        destruct (object_attribute n); [intros [= _ <-]; auto | discriminate].
    + destruct (find_Room_property n) as [p|] eqn:Hp; [| discriminate].
      destruct (find_Room_property_name n p Hp) as [Hin _].
      rewrite (Room_properties_have_no_setter p Hin). discriminate.
    + destruct (is_Room_method m) eqn:Hm; [| discriminate].
      intros _. right. exists m, args. split; [reflexivity |].
      unfold is_Room_method in Hm. apply existsb_exists in Hm.
      destruct Hm as (m' & Hin & Heq). apply String.eqb_eq in Heq. now subst m'.
Qed.

(** X11: reading an attribute of a room succeeds for every name that the
    module registers in the scope of the class: the ten members, the nine
    functions and the constructor [__init__]; and it leaves the room as it
    is.  A name that the module does not register is looked up in what
    every Python object has, and raises an AttributeError when that has no
    such attribute.  The dimension that [create_room] stores is such a
    name: [dim] is not registered. *)
Theorem Room_getattr_outcome (n : string) (r : Room) :
  (In n Room_registered_names ->
   exists y,
     Room_apply Room_method object_attribute (GetAttr n) r = Returned (y, r)) /\
  (~ In n Room_registered_names ->
   Room_apply Room_method object_attribute (GetAttr n) r =
   match object_attribute n with
   | Some y => Returned (VObject y, r)
   | None => Raised attribute_error
   end) /\
  ~ In "dim"%string Room_registered_names.
Proof.
  split; [| split].
  - intros H. simpl in H.
    repeat (destruct H as [<- | H]; [eexists; reflexivity |]).
    contradiction.
  - intros H. simpl.
    destruct (find_Room_property n) as [p|] eqn:Hp.
    + exfalso. apply H. apply in_or_app. left.
      destruct (find_Room_property_name n p Hp) as [Hin <-].
      unfold Room_property_names. now apply in_map.
    + destruct (is_Room_method n) eqn:Hm; [| reflexivity].
      exfalso. apply H. apply in_or_app. right.
      unfold is_Room_method in Hm. apply existsb_exists in Hm.
      destruct Hm as (m & Hin & Heq). apply String.eqb_eq in Heq. now subst m.
  - simpl. intuition discriminate.
Qed.

(** X12: a room read back from Python right after its construction shows
    the walls, the obstructing indices and the microphones it was
    constructed from, the first microphone as [mic_pos], and no image
    source. *)
Theorem Room_constructed_then_read
        (dim0 : Z) (max_dist0 : float) (get_max_distance : Room -> float)
        (ws : list Wall) (zs : list Z) (m : MatrixXf) (r : Room) :
  create_room dim0 max_dist0 get_max_distance (map PyWall ws) (map PyInt zs) m
  = Returned r ->
  Room_apply Room_method object_attribute (GetAttr "walls") r = Returned (VWalls ws, r) /\
  Room_apply Room_method object_attribute (GetAttr "obstructing_walls") r = Returned (VInts zs, r) /\
  Room_apply Room_method object_attribute (GetAttr "microphones") r = Returned (VMatrix m, r) /\
  (exists c cs, mat_columns m = c :: cs /\
                Room_apply Room_method object_attribute (GetAttr "mic_pos") r
                = Returned (VVector c, r)) /\
  Room_apply Room_method object_attribute (GetAttr "sources") r = Returned (VSources [], r) /\
  Room_apply Room_method object_attribute (GetAttr "orders") r = Returned (VOrders [], r) /\
  Room_apply Room_method object_attribute (GetAttr "attenuations") r = Returned (VFloats [], r).
Proof.
  intros Hr.
  destruct (create_room_inversion dim0 max_dist0 get_max_distance _ _ m r Hr)
    as (ws' & os & w & c & Hws & Hos & Hw & Hc & ->).
  rewrite push_back_all_walls in Hws. inversion Hws; subst ws'.
  assert (Hzs : Forall in_int_range zs).
  { destruct (create_room_returned_inputs dim0 max_dist0 get_max_distance
                _ _ m _ Hr) as (_ & _ & zs' & _ & _ & _ & Hobs & Hrange & _).
    assert (Heq : zs = zs').
    { clear -Hobs. revert zs' Hobs.
      induction zs as [|z zs IH]; intros [|z' zs'] H; simpl in H;
        try discriminate; [reflexivity |].
      inversion H. f_equal. now apply IH. }
    now subst zs'. }
  rewrite (push_back_all_ints zs Hzs) in Hos. inversion Hos; subst os.
  unfold col0 in Hc. destruct (mat_columns m) as [|c' cs] eqn:Hm;
    [discriminate |]. inversion Hc; subst c'.
  repeat split; try reflexivity.
  exists c, cs. split; reflexivity.
Qed.

End RoomAttributes.

Lemma Room_attributes_are_read_only_witness :
  Room_apply (fun _ _ r => Returned (VObject PyNone, r)) (fun _ => None) (GetAttr "max_dist")
             box_4_3_2
  = Returned (VFloat 10, box_4_3_2) /\
  (box_4_3_2 = box_4_3_2 \/
   exists m args, GetAttr "max_dist" = CallMethod m args /\ In m Room_methods).
Proof.
  assert (H : Room_apply (fun _ _ r => Returned (VObject PyNone, r))
                         (fun _ => None) (GetAttr "max_dist") box_4_3_2
              = Returned (VFloat 10, box_4_3_2)) by reflexivity.
  split; [exact H |].
  exact (proj2 (Room_attributes_are_read_only
                  (fun _ _ r => Returned (VObject PyNone, r)) (fun _ => None)
                  (GetAttr "max_dist") box_4_3_2) _ _ H).
Defined.

Lemma Room_constructed_then_read_witness :
  create_room 0 0 (fun _ => 10) (map PyWall [wall_3d]) (map PyInt [0%Z])
              one_microphone
  = Returned (mkRoom 3 [wall_3d] [0%Z] one_microphone [2; 2; 1] 10
                     [] [] [] [] []) /\
  Room_apply (fun _ _ r => Returned (VObject PyNone, r)) (fun _ => None) (GetAttr "walls")
             (mkRoom 3 [wall_3d] [0%Z] one_microphone [2; 2; 1] 10
                     [] [] [] [] [])
  = Returned (VWalls [wall_3d],
              mkRoom 3 [wall_3d] [0%Z] one_microphone [2; 2; 1] 10
                     [] [] [] [] []).
Proof.
  assert (H : create_room 0 0 (fun _ => 10) (map PyWall [wall_3d])
                          (map PyInt [0%Z]) one_microphone
              = Returned (mkRoom 3 [wall_3d] [0%Z] one_microphone [2; 2; 1] 10
                                 [] [] [] [] [])) by reflexivity.
  split; [exact H |].
  exact (proj1 (Room_constructed_then_read
                  (fun _ _ r => Returned (VObject PyNone, r)) (fun _ => None)
                  0 0 (fun _ => 10) [wall_3d] [0%Z] one_microphone _ H)).
Defined.

(** The constructor is read through a room; [dim] and [volume] are not
    registered names. *)
Lemma Room_getattr_outcome_witness :
  In "__init__"%string Room_registered_names /\
  (exists y,
      Room_apply (fun _ _ r => Returned (VObject PyNone, r)) (fun _ => None)
                 (GetAttr "__init__") box_4_3_2
      = Returned (y, box_4_3_2)) /\
  ~ In "volume"%string Room_registered_names /\
  Room_apply (fun _ _ r => Returned (VObject PyNone, r)) (fun _ => None)
             (GetAttr "volume") box_4_3_2
  = Raised attribute_error.
Proof.
  assert (Hin : In "__init__"%string Room_registered_names)
    by (simpl; intuition congruence).
  assert (Hout : ~ In "volume"%string Room_registered_names)
    by (simpl; intuition discriminate).
  split; [exact Hin | split; [| split; [exact Hout |]]].
  - exact (proj1 (Room_getattr_outcome
                    (fun _ _ r => Returned (VObject PyNone, r))
                    (fun _ => None) "__init__" box_4_3_2) Hin).
  - exact (proj1 (proj2 (Room_getattr_outcome
                           (fun _ _ r => Returned (VObject PyNone, r))
                           (fun _ => None) "volume" box_4_3_2)) Hout).
Defined.

(** ** Arguments of the constructor of a wall *)

Lemma lookup_keyword_In (n : string) (kwargs : list (string * py_object))
      (v : py_object) :
  lookup_keyword n kwargs = Some v -> In (n, v) kwargs.
Proof.
  unfold lookup_keyword.
  destruct (find _ kwargs) as [[k v']|] eqn:H; simpl; [| discriminate].
  intros [= <-]. apply find_some in H. destruct H as [Hin Hk].
  simpl in Hk. apply String.eqb_eq in Hk. now subst k.
Qed.

Lemma lookup_keyword_None (n : string) (kwargs : list (string * py_object)) :
  lookup_keyword n kwargs = None -> ~ In n (keywords kwargs).
Proof.
  unfold lookup_keyword, keywords.
  destruct (find _ kwargs) as [kv|] eqn:H; simpl; [discriminate |].
  intros _ Hin. apply in_map_iff in Hin. destruct Hin as ([k v] & Hk & Hin).
  simpl in Hk. subst k.
  pose proof (find_none _ _ H _ Hin) as Hf. simpl in Hf.
  now rewrite String.eqb_refl in Hf.
Qed.

Lemma lookup_keyword_perm (n : string) (kw kw' : list (string * py_object)) :
  Permutation kw kw' ->
  NoDup (keywords kw) ->
  lookup_keyword n kw = lookup_keyword n kw'.
Proof.
  unfold lookup_keyword, keywords.
  induction 1 as [| [k v] l l' Hp IH | [k1 v1] [k2 v2] l | l l' l'' H1 IH1 H2 IH2];
    intros Hnd; simpl in *.
  - reflexivity.
  - destruct (String.eqb k n); [reflexivity |].
    apply IH. now inversion Hnd.
  - destruct (String.eqb k1 n) eqn:E1, (String.eqb k2 n) eqn:E2; try reflexivity.
    apply String.eqb_eq in E1. apply String.eqb_eq in E2. subst k1 k2.
    inversion Hnd as [| ? ? Hnotin _]. exfalso. apply Hnotin. now left.
  - rewrite IH1 by exact Hnd. apply IH2.
    apply (Permutation_NoDup (Permutation_map fst H1) Hnd).
Qed.

Lemma remove_keyword_perm (n : string) (kw kw' : list (string * py_object)) :
  Permutation kw kw' ->
  Permutation (remove_keyword n kw) (remove_keyword n kw').
Proof.
  unfold remove_keyword.
  induction 1 as [| kv l l' Hp IH | kv1 kv2 l | l l' l'' H1 IH1 H2 IH2]; simpl.
  - constructor.
  - destruct (negb _); [now constructor | exact IH].
  - destruct (negb (String.eqb (fst kv1) n)), (negb (String.eqb (fst kv2) n));
      try apply Permutation_refl; apply perm_swap.
  - eapply Permutation_trans; eassumption.
Qed.

Lemma remove_keyword_In (n k : string) (v : py_object)
      (kw : list (string * py_object)) :
  In (k, v) (remove_keyword n kw) <-> In (k, v) kw /\ k <> n.
Proof.
  unfold remove_keyword. rewrite filter_In. simpl.
  rewrite negb_true_iff, String.eqb_neq. tauto.
Qed.

Lemma remove_keyword_NoDup (n : string) (kw : list (string * py_object)) :
  NoDup (keywords kw) -> NoDup (keywords (remove_keyword n kw)).
Proof.
  unfold keywords, remove_keyword.
  induction kw as [| [k v] kw IH]; simpl; intros H.
  - constructor.
  - inversion H as [| ? ? Hnotin Hnd]; subst.
    destruct (negb (String.eqb k n)); simpl; [| now apply IH].
    constructor; [| now apply IH].
    intros Hin. apply Hnotin. apply in_map_iff in Hin.
    destruct Hin as ([k' v'] & Hk & Hin). simpl in Hk. subst k'.
    apply filter_In in Hin. destruct Hin as [Hin _].
    apply in_map_iff. exists (k, v'). auto.
Qed.

(** The order of the keywords does not matter. *)
Lemma bind_arguments_perm (params : list parameter) :
  forall args kw kw',
    Permutation kw kw' ->
    NoDup (keywords kw) ->
    bind_arguments params args kw = bind_arguments params args kw'.
Proof.
  induction params as [| p params IH]; intros args kw kw' Hp Hnd; simpl.
  - destruct args; [| reflexivity].
    destruct kw as [| kv kw].
    + apply Permutation_nil in Hp. now subst kw'.
    + destruct kw' as [| kv' kw']; [| reflexivity].
      apply Permutation_sym, Permutation_nil in Hp. discriminate.
  - rewrite <- (lookup_keyword_perm (par_name p) kw kw' Hp Hnd).
    destruct args as [| a args].
    + destruct (lookup_keyword (par_name p) kw).
      * rewrite (IH [] _ _ (remove_keyword_perm (par_name p) kw kw' Hp)
                    (remove_keyword_NoDup (par_name p) kw Hnd)).
        reflexivity.
      * destruct (par_default p); [| reflexivity].
        now rewrite (IH [] kw kw' Hp Hnd).
    + destruct (lookup_keyword (par_name p) kw); [reflexivity |].
      now rewrite (IH args kw kw' Hp Hnd).
Qed.

(** What a successful match tells about the call. *)
Lemma bind_arguments_returned (params : list parameter) :
  forall args kw vals,
    bind_arguments params args kw = Returned vals ->
    (List.length args <= List.length params)%nat /\
    List.length vals = List.length params /\
    forall k v, In (k, v) kw ->
                In k (map par_name (skipn (List.length args) params)).
Proof.
  induction params as [| p params IH]; intros args kw vals; simpl.
  - destruct args, kw; try discriminate.
    intros [= <-]. repeat split; auto.
  - destruct args as [| a args].
    + destruct (lookup_keyword (par_name p) kw) as [v0|] eqn:Hl.
      * destruct (bind_arguments params [] (remove_keyword (par_name p) kw))
          as [rest| |] eqn:Hb; simpl; try discriminate.
        intros [= <-]. destruct (IH _ _ _ Hb) as (_ & Hlen & Hkeys).
        simpl. repeat split; [lia | now rewrite Hlen |].
        intros k v Hin.
        destruct (String.eqb_spec k (par_name p)) as [-> | Hne]; [now left |].
        right. apply (Hkeys k v). apply remove_keyword_In. auto.
      * destruct (par_default p) as [d|]; [| discriminate].
        destruct (bind_arguments params [] kw) as [rest| |] eqn:Hb; simpl;
          try discriminate.
        intros [= <-]. destruct (IH _ _ _ Hb) as (_ & Hlen & Hkeys).
        simpl. repeat split; [lia | now rewrite Hlen |].
        intros k v Hin. right. apply (Hkeys k v Hin).
    + destruct (lookup_keyword (par_name p) kw) as [v0|] eqn:Hl; [discriminate |].
      destruct (bind_arguments params args kw) as [rest| |] eqn:Hb; simpl;
        try discriminate.
      intros [= <-]. destruct (IH _ _ _ Hb) as (Hle & Hlen & Hkeys).
      simpl. repeat split; [lia | now rewrite Hlen | exact Hkeys].
Qed.

(** A match that fails raises a TypeError. *)
Lemma bind_arguments_fails (params : list parameter) :
  forall args kw,
    (exists vals, bind_arguments params args kw = Returned vals) \/
    bind_arguments params args kw = Raised type_error.
Proof.
  induction params as [| p params IH]; intros args kw; simpl.
  - destruct args, kw; eauto.
  - destruct args as [| a args].
    + destruct (lookup_keyword (par_name p) kw) as [v0|].
      * destruct (IH [] (remove_keyword (par_name p) kw)) as [[rest ->] | ->];
          simpl; eauto.
      * destruct (par_default p) as [d|]; [| auto].
        destruct (IH [] kw) as [[rest ->] | ->]; simpl; eauto.
    + destruct (lookup_keyword (par_name p) kw) as [v0|]; [auto |].
      destruct (IH args kw) as [[rest ->] | ->]; simpl; eauto.
Qed.

Section WallConstructorProperties.

Variable Wall_constructor : MatrixXf -> float -> string -> outcome Wall.

(** X13: the constructor of a wall takes its arguments by position or by
    keyword, the keywords in any order, and a call that leaves out the
    absorption or the name is the call with absorption 0 or with the empty
    name. *)
Theorem Wall_init_arguments :
  (forall args kw kw',
      Permutation kw kw' ->
      NoDup (keywords kw) ->
      Wall_init Wall_constructor args kw = Wall_init Wall_constructor args kw') /\
  (forall c a n,
      Wall_init Wall_constructor [c; a; n] []
      = Wall_init Wall_constructor []
                  [("corners", c); ("absorption", a); ("name", n)]%string /\
      Wall_init Wall_constructor [c; a; n] []
      = Wall_init Wall_constructor [c] [("absorption", a); ("name", n)]%string /\
      Wall_init Wall_constructor [c; a; n] []
      = Wall_init Wall_constructor [c; a] [("name", n)]%string) /\
  (forall c a,
      Wall_init Wall_constructor [c] []
      = Wall_init Wall_constructor [c; PyFloat 0; PyStr ""] [] /\
      Wall_init Wall_constructor [c; a] []
      = Wall_init Wall_constructor [c; a; PyStr ""] [] /\
      Wall_init Wall_constructor [c] [("name", a)]%string
      = Wall_init Wall_constructor [c; PyFloat 0; a] []).
Proof.
  split; [| split].
  - intros args kw kw' Hp Hnd. unfold Wall_init.
    now rewrite (bind_arguments_perm Wall_init_parameters args kw kw' Hp Hnd).
  - intros c a n. repeat split; reflexivity.
  - intros c a. repeat split; reflexivity.
Qed.

(** X14: the constructor of a wall raises a TypeError when it is given more
    than three positional arguments, when a keyword is not the name of a
    parameter or names one that a positional argument has filled, and when
    the corners are not given. *)
Theorem Wall_init_rejects (args : list py_object)
        (kwargs : list (string * py_object)) :
  (3 < List.length args)%nat \/
  (exists k v,
      In (k, v) kwargs /\
      ~ In k (map par_name (skipn (List.length args) Wall_init_parameters))) \/
  (args = [] /\ lookup_keyword "corners" kwargs = None) ->
  Wall_init Wall_constructor args kwargs = Raised type_error.
Proof.
  intros H. unfold Wall_init.
  destruct (bind_arguments_fails Wall_init_parameters args kwargs)
    as [[vals Hb] | ->]; [| reflexivity].
  exfalso.
  destruct H as [Hlen | [(k & v & Hin & Hk) | [-> Hc]]].
  - apply bind_arguments_returned in Hb. simpl in Hb. lia.
  - apply bind_arguments_returned in Hb. destruct Hb as (_ & _ & Hkeys).
    exact (Hk (Hkeys k v Hin)).
  - simpl in Hb. rewrite Hc in Hb. discriminate.
Qed.

End WallConstructorProperties.

Lemma Wall_init_arguments_witness :
  Permutation [("name", PyStr "floor"); ("absorption", PyFloat (1 # 5))]%string
              [("absorption", PyFloat (1 # 5)); ("name", PyStr "floor")]%string /\
  NoDup (keywords [("name", PyStr "floor"); ("absorption", PyFloat (1 # 5))]%string) /\
  Wall_init (fun c a n => Returned (mkWall 3 a n c [] [] c c))
            [PyMatrix (corners wall_3d)]
            [("name", PyStr "floor"); ("absorption", PyFloat (1 # 5))]%string
  = Wall_init (fun c a n => Returned (mkWall 3 a n c [] [] c c))
              [PyMatrix (corners wall_3d)]
              [("absorption", PyFloat (1 # 5)); ("name", PyStr "floor")]%string.
Proof.
  assert (Hp : Permutation
                 [("name", PyStr "floor"); ("absorption", PyFloat (1 # 5))]%string
                 [("absorption", PyFloat (1 # 5)); ("name", PyStr "floor")]%string)
    by apply perm_swap.
  assert (Hnd : NoDup (keywords [("name", PyStr "floor");
                                 ("absorption", PyFloat (1 # 5))]%string)).
  { simpl. constructor; [| constructor; [| constructor]]; simpl; intuition discriminate. }
  split; [exact Hp | split; [exact Hnd |]].
  exact (proj1 (Wall_init_arguments
                  (fun c a n => Returned (mkWall 3 a n c [] [] c c)))
               [PyMatrix (corners wall_3d)] _ _ Hp Hnd).
Defined.

(** The absorption given twice, by position and by keyword. *)
Lemma Wall_init_rejects_witness :
  (exists k v,
      In (k, v) [("absorption", PyFloat 1)]%string /\
      ~ In k (map par_name
                  (skipn (List.length [PyMatrix (corners wall_3d); PyFloat 0])
                         Wall_init_parameters))) /\
  Wall_init (fun c a n => Returned (mkWall 3 a n c [] [] c c))
            [PyMatrix (corners wall_3d); PyFloat 0]
            [("absorption", PyFloat 1)]%string
  = Raised type_error.
Proof.
  assert (H : exists k v,
             In (k, v) [("absorption", PyFloat 1)]%string /\
             ~ In k (map par_name
                         (skipn (List.length [PyMatrix (corners wall_3d); PyFloat 0])
                                Wall_init_parameters))).
  { exists "absorption"%string, (PyFloat 1). split; [left; reflexivity |].
    simpl. intuition discriminate. }
  split; [exact H |].
  exact (Wall_init_rejects (fun c a n => Returned (mkWall 3 a n c [] [] c c))
           [PyMatrix (corners wall_3d); PyFloat 0]
           [("absorption", PyFloat 1)]%string (or_intror (or_introl H))).
Defined.

(** ** The tolerance in single precision *)

(** Rounding a number that the format holds gives the number. *)
Lemma binary_round_bounded (prec emax : Z) (s : bool) (m : positive) (e : Z) :
  bounded prec emax m e = true ->
  binary_round prec emax s m e = S754_finite s m e.
Proof.
  unfold bounded, canonical_mantissa. intros H.
  apply andb_true_iff in H. destruct H as [Hc He].
  apply Z.eqb_eq in Hc.
  unfold binary_round, shl_align. rewrite Hc, Z.sub_diag.
  cbv beta iota.
  unfold binary_round_aux, shr_fexp, Zdigits2, shr_record_of_loc.
  rewrite Hc, Z.sub_diag. unfold shr. cbv beta iota.
  unfold shr_m, loc_of_shr_record, round_nearest_even.
  rewrite Hc, Z.sub_diag. cbv beta iota. rewrite He. reflexivity.
Qed.




(** The number that [globals] holds at the start is the number that the
    variable stores. *)
Lemma initial_tolerance_is_the_stored_float :
  exists q,
    Single.value (Single.get_eps Single.initial_globals) = Some q /\
    q == libroom_eps initial_globals.
Proof.
  eexists. split; [vm_compute; reflexivity |]. vm_compute. reflexivity.
Qed.

(** The double written [1e-5] is within half a unit in the last place of
    one hundred-thousandth. *)
Lemma literal_1e_5_is_nearest :
  valid_binary 53 1024 Single.literal_1e_5 = true /\
  exists q,
    Single.value Single.literal_1e_5 = Some q /\
    Qabs (q - (1 # 100000)) <= Qpower 2 (-70).
Proof.
  split; [reflexivity |].
  eexists. split; [reflexivity |].
  apply Qle_bool_iff. vm_compute. reflexivity.
Qed.

(** X15: the tolerance is held in single precision.  A single-precision
    number given to [set_eps] is stored and read back as it is, whatever
    the tolerance was.  The initial tolerance is not one
    hundred-thousandth but the single-precision number nearest to it,
    10995116 / 2^40, which is what [get_eps] returns before any
    [set_eps]. *)
Theorem tolerance_is_held_in_single_precision :
  (forall x g,
      Single.is_float x = true ->
      Single.get_eps (Single.set_eps x g) = x) /\
  Single.get_eps Single.initial_globals = S754_finite false 10995116 (-40) /\
  exists q,
    Single.value (Single.get_eps Single.initial_globals) = Some q /\
    q == 10995116 # (2 ^ 40) /\
    ~ q == 1 # 100000 /\
    Qabs (q - (1 # 100000)) <= Qpower 2 (-41).
Proof.
  split; [| split].
  - intros x g Hx. unfold Single.get_eps, Single.set_eps. simpl.
    destruct x as [s | s | | s m e]; try reflexivity.
    apply binary_round_bounded. exact Hx.
  - vm_compute. reflexivity.
  - eexists. split; [vm_compute; reflexivity |].
    split; [| split].
    + vm_compute. reflexivity.
    + intros H. vm_compute in H. discriminate.
    + apply Qle_bool_iff. vm_compute. reflexivity.
Qed.

(** One half, and after it three quarters. *)
Lemma tolerance_is_held_in_single_precision_witness :
  Single.is_float (S754_finite false 12582912 (-24)) = true /\
  Single.get_eps
    (Single.set_eps (S754_finite false 12582912 (-24))
                    (Single.set_eps (S754_finite false 8388608 (-24))
                                    Single.initial_globals))
  = S754_finite false 12582912 (-24).
Proof.
  split; [reflexivity |].
  exact (proj1 tolerance_is_held_in_single_precision
               (S754_finite false 12582912 (-24)) _ eq_refl).
Defined.

(** The double written [0.1] is not a single-precision number: it is read
    back as 13421773 / 2^27. *)
Lemma set_eps_rounds_one_tenth :
  Single.get_eps
    (Single.set_eps (S754_finite false 7205759403792794 (-56))
                    Single.initial_globals)
  = S754_finite false 13421773 (-27).
Proof. vm_compute. reflexivity. Qed.
